(** * Retrieval-augmented report generation: the pipeline of
      [vector_db.py], [rag_retrieval.py] and [agent.py]

    The Python code is embedded shallowly.  Pure helpers become Rocq
    functions returning an [outcome] (a value or a raised exception);
    code that talks to the vector store, the generation service or the
    console is written in a small state-and-exception monad over a
    chronological trace of events.  The two external libraries (chromadb
    and autogen) are not part of the repository: their answers are the
    fields of the class [Externals], and what the pipeline asks of them is
    recorded in the trace.  The interpreter's Unicode case mapping behind
    [str.upper] is a parameter too, the class [Unicode], fixed where the
    text is ASCII. *)

From Stdlib Require Import ZArith String Ascii List Lia SpecFloat.
From stdpp Require Import base strings gmap list pretty.

Local Open Scope Z_scope.

(** ** Python values, exceptions, strings and floats *)
Module Py.

(** The exceptions the modelled code can raise.  [External] stands for a
    failure reported by a collaborator (vector store, generation service),
    tagged with its kind. *)
Inductive exn : Type :=
| KeyError (key : string)
| IndexError
| TypeError
| AttributeError (attr : string)
| External (kind : string).

Inductive outcome (A : Type) : Type :=
| Ret (a : A)
| Raise (e : exn).
Arguments Ret {A} a.
Arguments Raise {A} e.

Definition obind {A B} (x : outcome A) (k : A -> outcome B) : outcome B :=
  match x with
  | Ret a => k a
  | Raise e => Raise e
  end.

#[global] Instance outcome_ret : MRet outcome := @Ret.
#[global] Instance outcome_bind : MBind outcome := fun A B k x => obind x k.

(** Metadata values as the loader of [vector_db.py] writes them: strings
    (every numeric quantity goes through [str(...)]) and integer ids;
    booleans are the third scalar the store accepts. *)
Inductive value : Type :=
| VStr (s : string)
| VInt (z : Z)
| VBool (b : bool).

#[global] Instance value_eq_dec : EqDecision value.
Proof. solve_decision. Defined.

(** [str(v)], and [str(d.get(k))] where a missing key gives [None]. *)
Definition str (v : value) : string :=
  match v with
  | VStr s => s
  | VInt z => pretty z
  | VBool b => if b then "True" else "False"
  end.

Definition str_opt (v : option value) : string :=
  match v with
  | Some v => str v
  | None => "None"
  end.

Definition nl : string := String (ascii_of_nat 10) EmptyString.

(** [sep.join(parts)] *)
Fixpoint join (sep : string) (parts : list string) : string :=
  match parts with
  | [] => ""
  | p :: ps =>
      match ps with
      | [] => p
      | _ :: _ => p +:+ sep +:+ join sep ps
      end
  end.

(** A triple-quoted literal, given line by line. *)
Definition text (lines : list string) : string := join nl lines.

(** [s.upper()] on ASCII text: the letters a-z go to A-Z, every other
    character is kept. *)
Definition upper_ascii (c : ascii) : ascii :=
  let n := nat_of_ascii c in
  if ((97 <=? n)%nat && (n <=? 122)%nat)%bool then ascii_of_nat (n - 32) else c.

Fixpoint ascii_upper (s : string) : string :=
  match s with
  | EmptyString => EmptyString
  | String c s' => String (upper_ascii c) (ascii_upper s')
  end.

(** [s.isascii()] *)
Fixpoint isascii (s : string) : bool :=
  match s with
  | EmptyString => true
  | String c s' => ((nat_of_ascii c <? 128)%nat && isascii s')%bool
  end.

(** [s.upper()] in general follows the Unicode case mappings built into
    the interpreter, which are no part of the repository.  It is a
    parameter of the model, known where the text is ASCII. *)
Class Unicode : Type := {
  upper : string -> string;
  upper_isascii : forall s, isascii s = true -> upper s = ascii_upper s
}.

(** [s in t] for strings. *)
Definition contains (t s : string) : Prop := exists pre post, t = pre +:+ s +:+ post.

(** Python floats are IEEE 754 binary64 numbers. *)
Abbreviation float := spec_float.
Definition prec : Z := 53.
Definition emax : Z := 1024.

Definition float_of_int (z : Z) : float := binary_normalize prec emax z 0 false.
Definition float_sub (x y : float) : float := SFsub prec emax x y.
Definition float_div (x y : float) : float := SFdiv prec emax x y.
Definition float_ltb (x y : float) : bool := SFltb x y.

(** The decimal literal [n/10^k] with [n] and [10^k] exactly representable:
    the correctly rounded quotient is the float the literal denotes. *)
Definition decimal (n : Z) (k : Z) : float :=
  float_div (float_of_int n) (float_of_int (10 ^ k)).

(** [format(x, ".2f")]: the exact binary value rounded to two decimals,
    ties to even, the sign kept also when the digits are all zero. *)
Definition round_half_even (num den : Z) : Z :=
  let q := num / den in
  let r := num mod den in
  match 2 * r ?= den with
  | Lt => q
  | Gt => q + 1
  | Eq => if Z.even q then q else q + 1
  end.

Definition hundredths (m : positive) (e : Z) : Z :=
  if 0 <=? e then Z.pos m * 100 * 2 ^ e
  else round_half_even (Z.pos m * 100) (2 ^ (- e)).

Definition two_digits (n : Z) : string :=
  if n <? 10 then "0" +:+ pretty n else pretty n.

Definition fixed2 (neg : bool) (n : Z) : string :=
  (if neg then "-" else "") +:+ pretty (n / 100) +:+ "." +:+ two_digits (n mod 100).

Definition format_2f (x : float) : string :=
  match x with
  | S754_nan => "nan"
  | S754_infinity s => if s then "-inf" else "inf"
  | S754_zero s => fixed2 s 0
  | S754_finite s m e => fixed2 s (hundredths m e)
  end.

End Py.
Export Py.

(** ** The external collaborators and the trace of what is asked of them *)
Module World.

(** A Python dictionary with string keys and scalar values: the metadata of
    a record, and the [where] filter of a query. *)
Abbreviation dict := (gmap string value).

(** The keyword arguments that [query_vectordb] passes to
    [collection.query].  The key
    [where] is present only when a filter was given. *)
Record query_params : Type := {
  query_texts : list string;
  n_results : Z;
  where_ : option dict
}.

(** The dictionary a query returns, seen through the three keys the
    pipeline reads; [None] is an absent key.  Each entry holds one inner
    list per query text. *)
Record query_result : Type := {
  documents : option (list (list string));
  metadatas : option (list (list dict));
  distances : option (list (list float))
}.

(** The [llm_config] dictionary and an [autogen.AssistantAgent]. *)
Record llm_config : Type := {
  model : string;
  api_key : string;
  temperature : float;
  timeout : Z;
  cache_seed : option Z
}.

Record assistant_agent : Type := {
  agent_name : string;
  system_message : string;
  agent_llm_config : llm_config
}.

(** One chat message, and the [autogen.UserProxyAgent] with the messages
    it has exchanged, per partner. *)
Record message : Type := {
  msg_role : string;
  msg_content : string
}.

Record user_proxy_agent : Type := {
  proxy_name : string;
  human_input_mode : string;
  max_consecutive_auto_reply : Z;
  code_execution_config : bool;
  default_auto_reply : string;
  chat_messages : gmap string (list message)
}.

(** What the program does to the outside, in the order it does it. *)
Inductive event : Type :=
| Printed (line : string)
| Queried (params : query_params)
| Generated (agent : assistant_agent) (prompt : string).

Abbreviation trace := (list event).

(** The answers of the outside world.  The generation service may answer
    the same prompt differently from one call to the next (the cache is
    switched off), so its answer depends on the trace so far. *)
Class Externals : Type := {
  OPENAI_API_KEY : string;
  client : Type;
  collection : Type;
  persistent_client : string -> bool -> outcome client;
  get_collection : client -> string -> outcome collection;
  create_collection : client -> string -> dict -> outcome collection;
  collection_query : collection -> query_params -> outcome query_result;
  completion : trace -> assistant_agent -> string -> outcome string
}.

(** Computations: they read and extend the trace, and return or raise.
    The trace survives an exception. *)
Definition py (A : Type) : Type := trace -> outcome A * trace.

Definition ret {A} (a : A) : py A := fun tr => (Ret a, tr).

Definition raise {A} (e : exn) : py A := fun tr => (Raise e, tr).

Definition bind {A B} (m : py A) (k : A -> py B) : py B :=
  fun tr =>
    match m tr with
    | (Ret a, tr') => k a tr'
    | (Raise e, tr') => (Raise e, tr')
    end.

#[global] Instance py_ret : MRet py := @ret.
#[global] Instance py_bind : MBind py := fun A B k m => bind m k.

Definition lift {A} (x : outcome A) : py A := fun tr => (x, tr).

Definition emit (ev : event) : py unit := fun tr => (Ret tt, tr ++ [ev]).

Definition print (line : string) : py unit := emit (Printed line).

(** The projections of a trace on its search calls and on its generation
    calls. *)
Definition search_of (ev : event) : option query_params :=
  match ev with
  | Queried p => Some p
  | _ => None
  end.

Definition generation_of (ev : event) : option (assistant_agent * string) :=
  match ev with
  | Generated a p => Some (a, p)
  | _ => None
  end.

Definition searches (tr : trace) : list query_params := omap search_of tr.

Definition generations (tr : trace) : list (assistant_agent * string) :=
  omap generation_of tr.

End World.
Export World.


(** ** autogen, as far as the pipeline uses it *)
Module Autogen.
Section WithExternals.
Context `{Externals}.

(** Modelled from the spec: autogen is an external library.  A chat opened
    with [max_turns=1] is one request to the generation service and one
    text response (spec 4.5 and 6): the proxy sends [message], the
    recipient produces one completion, and the exchange is stored under
    the recipient's name.  A failing request raises out of the call. *)
Definition initiate_chat (proxy : user_proxy_agent) (recipient : assistant_agent)
    (message : string) : py user_proxy_agent :=
  fun tr =>
    match completion tr recipient message with
    | Ret reply =>
        let exchange :=
          [ {| msg_role := "assistant"; msg_content := message |};
            {| msg_role := "user"; msg_content := reply |} ] in
        (Ret {| proxy_name := proxy_name proxy;
                human_input_mode := human_input_mode proxy;
                max_consecutive_auto_reply := max_consecutive_auto_reply proxy;
                code_execution_config := code_execution_config proxy;
                default_auto_reply := default_auto_reply proxy;
                chat_messages := <[agent_name recipient := exchange]> (chat_messages proxy) |},
         tr ++ [Generated recipient message])
    | Raise e => (Raise e, tr ++ [Generated recipient message])
    end.

(** [proxy.last_message(agent)]: the last message exchanged with [agent]. *)
Definition last_message (proxy : user_proxy_agent) (agent : assistant_agent)
    : outcome message :=
  match chat_messages proxy !! agent_name agent with
  | None => Raise (KeyError (agent_name agent))
  | Some msgs =>
      match last msgs with
      | Some m => Ret m
      | None => Raise IndexError
      end
  end.

End WithExternals.
End Autogen.
Export Autogen.

(** ** config.py *)
Module Config.

Definition CHROMA_DB_PATH : string := "./chroma_db".
Definition COLLECTION_NAME : string := "sales_marketing_data".

End Config.
Export Config.

(** ** vector_db.py *)
Module VectorDb.
Section WithExternals.
Context `{Externals}.

Definition initialize_chromadb : py (client * collection) :=
  cl ← lift (persistent_client CHROMA_DB_PATH false);
  match get_collection cl COLLECTION_NAME with
  | Ret c =>
      print ("Loaded existing collection: " +:+ COLLECTION_NAME);;
      mret (cl, c)
  | Raise _ =>
      c ← lift (create_collection cl COLLECTION_NAME
                  {[ "description" := VStr "Sales and marketing data for report generation" ]});
      print ("Created new collection: " +:+ COLLECTION_NAME);;
      mret (cl, c)
  end.

(** [if filter_dict:] holds for a dictionary with at least one key. *)
Definition truthy_dict (d : option dict) : bool :=
  match d with
  | Some m => bool_decide (m ≠ ∅)
  | None => false
  end.

Definition query_vectordb (coll : collection) (query_text : string) (n_results : Z)
    (filter_dict : option dict) : py query_result :=
  let query_params :=
    {| query_texts := [query_text]; n_results := n_results; where_ := None |} in
  let query_params :=
    if truthy_dict filter_dict
    then {| query_texts := query_texts query_params;
            n_results := World.n_results query_params;
            where_ := filter_dict |}
    else query_params in
  emit (Queried query_params);;
  lift (collection_query coll query_params).

End WithExternals.
End VectorDb.
Export VectorDb.

(** ** rag_retrieval.py *)
Module RagRetrieval.

(** One entry of the list built by [format_retrieval_results]. *)
Record context_item : Type := {
  rank : Z;
  relevance_score : float;
  type_ : value;
  content : string;
  metadata : dict
}.

(** [format_retrieval_results] returns either a string or a list of
    entries; [create_context_string] tells them apart with [isinstance]. *)
Inductive formatted : Type :=
| FStr (s : string)
| FList (items : list context_item).

Definition sentinel : string := "No relevant information found.".

(** [not results], for [None] and for a dictionary without entries. *)
Definition falsy_results (results : option query_result) : bool :=
  match results with
  | None => true
  | Some r =>
      match documents r, metadatas r, distances r with
      | None, None, None => true
      | _, _, _ => false
      end
  end.

(** [not d.get(key)]: the key is absent or its list is empty. *)
Definition falsy_entry {A} (entry : option (list A)) : bool :=
  match entry with
  | None | Some [] => true
  | Some (_ :: _) => false
  end.

(** [results[key][0]] *)
Definition first_of {A} (key : string) (entry : option (list A)) : outcome A :=
  match entry with
  | None => Raise (KeyError key)
  | Some [] => Raise IndexError
  | Some (x :: _) => Ret x
  end.

(** [zip(a, b, c)] stops with the shortest list. *)
Fixpoint zip3 {A B C} (a : list A) (b : list B) (c : list C) : list (A * B * C) :=
  match a, b, c with
  | x :: a', y :: b', z :: c' => (x, y, z) :: zip3 a' b' c'
  | _, _, _ => []
  end.

(** The body of the loop, for the element at index [i]. *)
Definition make_item (i : nat) (hit : string * dict * float) : context_item :=
  let '(doc, metadata, distance) := hit in
  {| rank := Z.of_nat i + 1;
     relevance_score := float_sub (float_of_int 1) distance;
     type_ := default (VStr "unknown") (metadata !! "type");
     content := doc;
     metadata := metadata |}.

Definition format_retrieval_results (results : option query_result) : outcome formatted :=
  match results with
  | None => Ret (FStr sentinel)
  | Some r =>
      if (falsy_results results || falsy_entry (documents r))%bool
      then Ret (FStr sentinel)
      else
        documents ← first_of "documents" (documents r);
        metadatas ← first_of "metadatas" (metadatas r);
        distances ← first_of "distances" (distances r);
        mret (FList (imap make_item (zip3 documents metadatas distances)))
  end.

Section WithUnicode.
Context `{Unicode}.

(** The lines one entry adds to [context_parts].  [.upper()] exists on
    strings only. *)
Definition item_parts (item : context_item) : outcome (list string) :=
  match type_ item with
  | VStr t =>
      let metadata := metadata item in
      mret ([ nl +:+ pretty (rank item) +:+ ". [" +:+ upper t +:+ "] (Relevance: "
                +:+ format_2f (relevance_score item) +:+ ")";
              "   " +:+ content item ]
            ++ (if decide (type_ item = VStr "sales") then
                  [ "   Product: " +:+ str_opt (metadata !! "product")
                      +:+ ", Revenue: $" +:+ str_opt (metadata !! "revenue")
                      +:+ ", Region: " +:+ str_opt (metadata !! "region")
                      +:+ ", Quarter: " +:+ str_opt (metadata !! "quarter") ]
                else if decide (type_ item = VStr "marketing") then
                  [ "   Campaign: " +:+ str_opt (metadata !! "campaign_name")
                      +:+ ", Channel: " +:+ str_opt (metadata !! "channel")
                      +:+ ", Budget: $" +:+ str_opt (metadata !! "budget")
                      +:+ ", Conversions: " +:+ str_opt (metadata !! "conversions") ]
                else []))
  | _ => Raise (AttributeError "upper")
  end.

(** The [for] loop over the entries, extending [context_parts]. *)
Fixpoint append_items (context_parts : list string) (items : list context_item)
    : outcome (list string) :=
  match items with
  | [] => mret context_parts
  | item :: rest =>
      parts ← item_parts item;
      append_items (context_parts ++ parts) rest
  end.

Definition create_context_string (formatted_context : formatted) : outcome string :=
  match formatted_context with
  | FStr s => mret s
  | FList items =>
      context_parts ← append_items ["Retrieved relevant information:" +:+ nl] items;
      mret (join nl context_parts)
  end.

Section WithExternals.
Context `{Externals}.

(** [if filter_type:] holds for a non-empty string. *)
Definition retrieve_relevant_context (query : string) (n_results : Z)
    (filter_type : option string) : py query_result :=
  '(_, collection) ← initialize_chromadb;
  let filter_dict :=
    match filter_type with
    | Some t => if decide (t = "") then None else Some ({[ "type" := VStr t ]} : dict)
    | None => None
    end in
  results ← query_vectordb collection query n_results filter_dict;
  mret results.

Definition retrieve_sales_data (query : string) (n_results : Z) : py string :=
  results ← retrieve_relevant_context query n_results (Some "sales");
  formatted ← lift (format_retrieval_results (Some results));
  lift (create_context_string formatted).

Definition retrieve_marketing_data (query : string) (n_results : Z) : py string :=
  results ← retrieve_relevant_context query n_results (Some "marketing");
  formatted ← lift (format_retrieval_results (Some results));
  lift (create_context_string formatted).

Definition retrieve_combined_data (query : string) (n_results : Z) : py string :=
  results ← retrieve_relevant_context query n_results None;
  formatted ← lift (format_retrieval_results (Some results));
  lift (create_context_string formatted).

End WithExternals.
End WithUnicode.
End RagRetrieval.
Export RagRetrieval.

(** ** agent.py *)
Module Agent.
Section WithExternals.
Context `{Unicode} `{Externals}.

Definition create_autogen_config : llm_config :=
  {| model := "gpt-4.1-nano";
     api_key := OPENAI_API_KEY;
     temperature := decimal 7 1;
     timeout := 120;
     cache_seed := None |}.

Definition create_data_analyst_agent : assistant_agent :=
  let system_message := text
    [ "You are a Senior Data Analyst specializing in sales and marketing analytics.";
      "";
      "Your responsibilities:";
      "1. Analyze sales and marketing data provided to you";
      "2. Identify trends, patterns, and anomalies";
      "3. Calculate key metrics and KPIs";
      "4. Provide data-driven insights";
      "5. Be precise and analytical in your findings";
      "";
      "You receive context from a RAG system containing real sales and marketing data.";
      "Base all your analysis on this retrieved context." ] in
  {| agent_name := "data_analyst";
     system_message := system_message;
     agent_llm_config := create_autogen_config |}.

Definition create_report_writer_agent : assistant_agent :=
  let system_message := text
    [ "You are a Professional Report Writer specialized in business reporting.";
      "";
      "Your responsibilities:";
      "1. Take analytical findings and create comprehensive reports";
      "2. Structure reports with clear sections (Executive Summary, Key Findings, etc.)";
      "3. Write in a professional, clear, and engaging manner";
      "4. Provide actionable recommendations";
      "5. Format reports properly with bullet points and sections";
      "";
      "Create reports that executives can easily understand and act upon." ] in
  {| agent_name := "report_writer";
     system_message := system_message;
     agent_llm_config := create_autogen_config |}.

Definition create_user_proxy : user_proxy_agent :=
  {| proxy_name := "user_proxy";
     human_input_mode := "NEVER";
     max_consecutive_auto_reply := 0;
     code_execution_config := false;
     default_auto_reply := "";
     chat_messages := ∅ |}.

(** The two f-strings of [generate_report_with_autogen_multiagent]. *)
Definition analysis_prompt (query context : string) : string :=
  text
    [ "Based on the following data retrieved from our database, please analyze and identify key insights:";
      "";
      "Query: " +:+ query;
      "";
      context;
      "";
      "Please provide:";
      "1. Key metrics and numbers";
      "2. Notable trends";
      "3. Top performers";
      "4. Areas of concern";
      "5. Data-driven insights" ].

Definition report_prompt (query analyst_findings : string) : string :=
  text
    [ "Based on the data analyst's findings, create a comprehensive professional report.";
      "";
      "Original Query: " +:+ query;
      "";
      "Data Analyst's Findings:";
      analyst_findings;
      "";
      "Create a detailed report with these sections:";
      "1. Executive Summary";
      "2. Key Findings  ";
      "3. Detailed Analysis";
      "4. Insights and Trends";
      "5. Recommendations";
      "";
      "Make it professional, clear, and actionable." ].

(** Step 1 of [generate_report_with_autogen_multiagent]: the choice of the
    retrieval by [report_type]. *)
Definition retrieve_context (query report_type : string) (n_results : Z) : py string :=
  if decide (report_type = "sales") then retrieve_sales_data query n_results
  else if decide (report_type = "marketing") then retrieve_marketing_data query n_results
  else retrieve_combined_data query n_results.

(** Steps 2 to 4 of [generate_report_with_autogen_multiagent]: the analyst
    is asked first, the writer second, with the analyst's answer in its
    prompt. *)
Definition analyse_then_write (query context : string) : py string :=
  let analyst := create_data_analyst_agent in
  let writer := create_report_writer_agent in
  let user_proxy := create_user_proxy in
  print "[AutoGen] Agent 1 (Data Analyst) - Analyzing data...";;
  user_proxy ← initiate_chat user_proxy analyst (analysis_prompt query context);
  reply ← lift (last_message user_proxy analyst);
  let analyst_findings := msg_content reply in
  print "[AutoGen] Agent 2 (Report Writer) - Creating report...";;
  user_proxy ← initiate_chat user_proxy writer (report_prompt query analyst_findings);
  reply ← lift (last_message user_proxy writer);
  let final_report := msg_content reply in
  print ("[AutoGen] Multi-Agent Report Generation Complete!" +:+ nl);;
  mret final_report.

Definition generate_report_with_autogen_multiagent (query report_type : string)
    (n_results : Z) : py string :=
  print (nl +:+ "[AutoGen] Starting Multi-Agent Analysis...");;
  context ← retrieve_context query report_type n_results;
  analyse_then_write query context.

Definition generate_report_with_rag (query report_type : string) (n_results : Z)
    : py string :=
  generate_report_with_autogen_multiagent query report_type n_results.

End WithExternals.
End Agent.
Export Agent.

(** ** Vocabulary of the statements *)
Module Vocabulary.

(** One raw hit of the similarity search, and the answer of the store that
    carries a list of hits as its single batch. *)
Record raw_hit : Type := {
  hit_document : string;
  hit_metadata : dict;
  hit_distance : float
}.

Definition batch_of (hits : list raw_hit) : query_result :=
  {| documents := Some [hit_document <$> hits];
     metadatas := Some [hit_metadata <$> hits];
     distances := Some [hit_distance <$> hits] |}.

(** A decidable test for [contains]. *)
Fixpoint prefixb (s t : string) : bool :=
  match s, t with
  | EmptyString, _ => true
  | String a s', String b t' => if decide (a = b) then prefixb s' t' else false
  | String _ _, EmptyString => false
  end.

Fixpoint containsb (t s : string) : bool :=
  if prefixb s t then true
  else match t with
       | EmptyString => false
       | String _ t' => containsb t' s
       end.

(** The metadata keys the composer prints for a record type, each with the
    label it prints in front of the value. *)
Definition expected_fields (t : string) : list (string * string) :=
  if decide (t = "sales") then
    [ ("product", "Product: "); ("revenue", "Revenue: $");
      ("region", "Region: "); ("quarter", "Quarter: ") ]
  else if decide (t = "marketing") then
    [ ("campaign_name", "Campaign: "); ("channel", "Channel: ");
      ("budget", "Budget: $"); ("conversions", "Conversions: ") ]
  else [].

(** What the metadata line is to show for a field: the value's text when
    the field is present, the marker [None] when it is absent. *)
Definition field_text (field : option value) : string :=
  match field with
  | Some v => str v
  | None => "None"
  end.

(** The type of an entry is ASCII text, or no string at all. *)
Definition ascii_typed (item : context_item) : bool :=
  match type_ item with
  | VStr t => isascii t
  | _ => true
  end.

(** A float below zero: a finite one with the sign set, or minus infinity. *)
Definition negative (x : float) : Prop :=
  (exists m e, x = S754_finite true m e) \/ x = S754_infinity true.

(** The one call [query_vectordb] makes for a query, a cap and a filter. *)
Definition search_call (query : string) (n : Z) (filter : option dict) : query_params :=
  {| query_texts := [query]; n_results := n; where_ := filter |}.

(** The hit of the round-trip scenario; its distance is the literal 0.09. *)
Definition widget_hit : raw_hit :=
  {| hit_document := "Q3 revenue up 12%";
     hit_metadata :=
       <["type" := VStr "sales"]>
         (<["product" := VStr "Widget A"]>
            (<["revenue" := VInt 500000]>
               (<["region" := VStr "NA"]>
                  (<["quarter" := VStr "Q3"]> ∅))));
     hit_distance := decimal 9 2 |}.

(** A hit farther than distance one (the literal 1.5), and an entry of type
    sales whose metadata has none of the sales keys. *)
Definition far_hit : raw_hit :=
  {| hit_document := "Unrelated note";
     hit_metadata := {[ "type" := VStr "sales" ]};
     hit_distance := decimal 15 1 |}.

Definition bare_item : context_item :=
  {| rank := 1;
     relevance_score := decimal 91 2;
     type_ := VStr "sales";
     content := "Q3 revenue up 12%";
     metadata := {[ "type" := VStr "sales" ]} |}.

(** The store's answer when nothing matches, and an answer that carries a
    document but neither metadata nor distances. *)
Definition no_hits : query_result := batch_of [].

Definition documents_only : query_result :=
  {| documents := Some [["Q3 revenue up 12%"]]; metadatas := None; distances := None |}.

(** The interpreter of the concrete runs, whose texts are all ASCII. *)
Definition ascii_interpreter : Unicode :=
  {| upper := ascii_upper; upper_isascii := fun _ _ => eq_refl |}.

(** Two outside worlds for concrete runs: one in which the store holds the
    hit above and the generation service answers every prompt, and one in
    which the generation service times out. *)
Definition answering_world : Externals :=
  {| OPENAI_API_KEY := "sk-demo";
     client := unit;
     collection := unit;
     persistent_client := fun _ _ => Ret tt;
     get_collection := fun _ _ => Ret tt;
     create_collection := fun _ _ _ => Ret tt;
     collection_query := fun _ _ => Ret (batch_of [widget_hit]);
     completion := fun _ agent _ => Ret ("Answer of " +:+ agent_name agent) |}.

Definition timeout_world : Externals :=
  {| OPENAI_API_KEY := "sk-demo";
     client := unit;
     collection := unit;
     persistent_client := fun _ _ => Ret tt;
     get_collection := fun _ _ => Ret tt;
     create_collection := fun _ _ _ => Ret tt;
     collection_query := fun _ _ => Ret (batch_of [widget_hit]);
     completion := fun _ _ _ => Raise (External "GenerationTimeout") |}.

Section WithExternals.
Context `{Externals}.

(** The store can be opened: the client is created and the collection is
    either found or created. *)
Definition store_opens : Prop :=
  exists cl c,
    persistent_client CHROMA_DB_PATH false = Ret cl /\
    (get_collection cl COLLECTION_NAME = Ret c \/
     ((exists e, get_collection cl COLLECTION_NAME = Raise e) /\
      create_collection cl COLLECTION_NAME
        {[ "description" := VStr "Sales and marketing data for report generation" ]} = Ret c)).

(** The trace at the moment the analyst, then the writer, is asked. *)
Definition at_analyst (tr : trace) : trace :=
  tr ++ [Printed "[AutoGen] Agent 1 (Data Analyst) - Analyzing data..."].

Definition at_writer (query context : string) (tr : trace) : trace :=
  at_analyst tr
    ++ [Generated create_data_analyst_agent (analysis_prompt query context)]
    ++ [Printed "[AutoGen] Agent 2 (Report Writer) - Creating report..."].

End WithExternals.
End Vocabulary.
Export Vocabulary.

(** ** agent.py: the entry point for a prompt built by the caller *)
Module AgentCustom.
Section WithExternals.
Context `{Externals}.

(** autogen's [proxy.last_message()] without a partner: the last message
    of the only conversation the proxy holds, [None] when it holds none,
    and a [ValueError] of the library when it holds several. *)
Definition last_message_any (proxy : user_proxy_agent) : outcome (option message) :=
  match map_to_list (chat_messages proxy) with
  | [] => Ret None
  | [(_, msgs)] =>
      match last msgs with
      | Some m => Ret (Some m)
      | None => Raise IndexError
      end
  | _ :: _ :: _ => Raise (External "ValueError")
  end.

Definition generate_custom_report (prompt_with_context : string) : py string :=
  let analyst := create_data_analyst_agent in
  let user_proxy := create_user_proxy in
  user_proxy ← initiate_chat user_proxy analyst prompt_with_context;
  reply ← lift (last_message_any user_proxy);
  match reply with
  | Some m => mret (msg_content m)
  | None => raise TypeError
  end.

End WithExternals.
End AgentCustom.
Export AgentCustom.

(** ** report_generator.py: the report functions *)
Module ReportGenerator.
Section WithExternals.
Context `{Unicode} `{Externals}.

(** [if part: query_part.append(phrase(part))], for an optional string:
    [None] and the empty string both skip the phrase. *)
Definition append_if_given (part : option string) (phrase : string -> string)
    (query_part : list string) : list string :=
  match part with
  | Some p => if decide (p = "") then query_part else query_part ++ [phrase p]
  | None => query_part
  end.

Definition sales_query (region quarter : option string) : string :=
  let query_part := ["Analyze sales performance"] in
  let query_part := append_if_given region (fun region => "in " +:+ region) query_part in
  let query_part := append_if_given quarter (fun quarter => "for " +:+ quarter) query_part in
  join " " query_part.

Definition generate_sales_performance_report (region quarter : option string) : py string :=
  let query := sales_query region quarter in
  print "Generating Sales Performance Report ...";;
  print ("Query: " +:+ query +:+ nl);;
  report ← generate_report_with_rag query "sales" 8;
  mret report.

Definition marketing_query (channel quarter : option string) : string :=
  let query_part := ["Analyze marketing campaign performance"] in
  let query_part :=
    append_if_given channel (fun channel => "for " +:+ channel +:+ " channel") query_part in
  let query_part := append_if_given quarter (fun quarter => "in " +:+ quarter) query_part in
  join " " query_part.

Definition generate_marketing_campaign_report (channel quarter : option string) : py string :=
  let query := marketing_query channel quarter in
  print "Generating marketing campaign report...";;
  print ("Query: " +:+ query +:+ nl);;
  report ← generate_report_with_rag query "marketing" 8;
  mret report.

Definition generate_quarterly_summary_report (quarter : string) : py string :=
  let query :=
    "Provide a comprehensive summary of sales and marketing performance for " +:+ quarter in
  print ("Generating quarterly summary report for " +:+ quarter +:+ "...");;
  print ("Query: " +:+ query +:+ nl);;
  report ← generate_report_with_rag query "combined" 10;
  mret report.

Definition generate_product_analysis_report (product_name : string) : py string :=
  let query := "Analyze the performance and marketing of " +:+ product_name in
  print ("Generating product analysis report for " +:+ product_name +:+ "...");;
  print ("Query: " +:+ query +:+ nl);;
  report ← generate_report_with_rag query "combined" 8;
  mret report.

Definition generate_regional_analysis_report (region : string) : py string :=
  let query := "Analyze sales and marketing performance in " +:+ region in
  print ("Generating regional analysis report for " +:+ region +:+ "...");;
  print ("Query: " +:+ query +:+ nl);;
  report ← generate_report_with_rag query "combined" 8;
  mret report.

Definition generate_custom_analysis_report (custom_query : string) : py string :=
  print "Generating custom analysis report...";;
  print ("Query: " +:+ custom_query +:+ nl);;
  report ← generate_report_with_rag custom_query "combined" 8;
  mret report.

End WithExternals.
End ReportGenerator.
Export ReportGenerator.

(** ** vector_db.py: loading, counting and clearing *)
Module VectorDbAdmin.

(** What these functions do to the store and the console, in order. *)
Inductive store_event : Type :=
| Shown (line : string)
| Added (documents : list value) (metadatas : list dict) (ids : list string)
| Counted
| Deleted (name : string).

(** The store's answers to the writing and counting calls. *)
Class StoreAdmin `{Externals} : Type := {
  collection_add : collection -> list value -> list dict -> list string -> outcome unit;
  collection_count : collection -> outcome Z;
  collection_name : collection -> string;
  delete_collection : client -> string -> outcome unit
}.

Definition admin (A : Type) : Type := list store_event -> outcome A * list store_event.

#[global] Instance admin_ret : MRet admin := fun A a log => (Ret a, log).
#[global] Instance admin_bind : MBind admin := fun A B k m log =>
  match m log with
  | (Ret a, log') => k a log'
  | (Raise e, log') => (Raise e, log')
  end.

Definition note (ev : store_event) : admin unit := fun log => (Ret tt, log ++ [ev]).

Definition answer {A} (x : outcome A) : admin A := fun log => (x, log).

(** [record[key]] *)
Definition field (record : dict) (key : string) : outcome value :=
  match record !! key with
  | Some v => Ret v
  | None => Raise (KeyError key)
  end.

(** The body of the first loop: document, metadata and id of one sale.
    The keys are read in the order the source reads them. *)
Definition sale_entry (sale : dict) : outcome (value * dict * string) :=
  doc_text ← field sale "description";
  id ← field sale "id";
  product ← field sale "product";
  category ← field sale "category";
  revenue ← field sale "revenue";
  units_sold ← field sale "units_sold";
  region ← field sale "region";
  quarter ← field sale "quarter";
  customer_segment ← field sale "customer_segment";
  sales_rep ← field sale "sales_rep";
  id' ← field sale "id";
  mret (doc_text,
        (<["type" := VStr "sales"]>
           (<["id" := id]>
              (<["product" := product]>
                 (<["category" := category]>
                    (<["revenue" := VStr (str revenue)]>
                       (<["units_sold" := VStr (str units_sold)]>
                          (<["region" := region]>
                             (<["quarter" := quarter]>
                                (<["customer_segment" := customer_segment]>
                                   (<["sales_rep" := sales_rep]> ∅)))))))))) : dict,
        "sales_" +:+ str id').

(** The body of the second loop, for one campaign. *)
Definition campaign_entry (campaign : dict) : outcome (value * dict * string) :=
  doc_text ← field campaign "description";
  id ← field campaign "id";
  campaign_name ← field campaign "campaign_name";
  channel ← field campaign "channel";
  budget ← field campaign "budget";
  impressions ← field campaign "impressions";
  clicks ← field campaign "clicks";
  conversions ← field campaign "conversions";
  quarter ← field campaign "quarter";
  target_segment ← field campaign "target_segment";
  id' ← field campaign "id";
  mret (doc_text,
        (<["type" := VStr "marketing"]>
           (<["id" := id]>
              (<["campaign_name" := campaign_name]>
                 (<["channel" := channel]>
                    (<["budget" := VStr (str budget)]>
                       (<["impressions" := VStr (str impressions)]>
                          (<["clicks" := VStr (str clicks)]>
                             (<["conversions" := VStr (str conversions)]>
                                (<["quarter" := quarter]>
                                   (<["target_segment" := target_segment]> ∅)))))))))) : dict,
        "marketing_" +:+ str id').

(** A [for] loop that appends one entry per record to the three lists. *)
Fixpoint append_entries (entry : dict -> outcome (value * dict * string))
    (lists : list value * list dict * list string) (records : list dict)
    : outcome (list value * list dict * list string) :=
  match records with
  | [] => mret lists
  | record :: rest =>
      let '(documents, metadatas, ids) := lists in
      '(doc_text, metadata, id) ← entry record;
      append_entries entry (documents ++ [doc_text], metadatas ++ [metadata], ids ++ [id]) rest
  end.

Section WithExternals.
Context `{StoreAdmin}.

Definition load_data_to_vectordb (coll : collection) (sales_data marketing_data : list dict)
    : admin Z :=
  lists ← answer (append_entries sale_entry ([], [], []) sales_data);
  '(documents, metadatas, ids) ← answer (append_entries campaign_entry lists marketing_data);
  note (Added documents metadatas ids);;
  answer (collection_add coll documents metadatas ids);;
  note (Shown ("Loaded " +:+ pretty (Z.of_nat (length documents)) +:+ " documents into ChromaDB"));;
  mret (Z.of_nat (length documents)).

(** The dictionary [get_collection_stats] returns. *)
Record collection_stats : Type := {
  total_documents : Z;
  stats_collection_name : string
}.

Definition get_collection_stats (coll : collection) : admin collection_stats :=
  note Counted;;
  count ← answer (collection_count coll);
  mret {| total_documents := count; stats_collection_name := collection_name coll |}.

Definition clear_collection (cl : client) (name : string) : admin unit :=
  note (Deleted name);;
  match delete_collection cl name with
  | Ret _ => note (Shown ("Deleted collection: " +:+ name))
  | Raise _ => note (Shown ("Collection " +:+ name +:+ " does not exist"))
  end.

End WithExternals.
End VectorDbAdmin.
Export VectorDbAdmin.

(** ** Vocabulary of the further statements *)
Module VocabularyMore.

(** The keys [load_data_to_vectordb] reads from a sale and from a
    campaign. *)
Definition sale_keys : list string :=
  [ "description"; "id"; "product"; "category"; "revenue"; "units_sold";
    "region"; "quarter"; "customer_segment"; "sales_rep" ].

Definition campaign_keys : list string :=
  [ "description"; "id"; "campaign_name"; "channel"; "budget"; "impressions";
    "clicks"; "conversions"; "quarter"; "target_segment" ].

Definition has_keys (keys : list string) (record : dict) : Prop :=
  forall key, key ∈ keys -> is_Some (record !! key).

(** The filter a report type stands for. *)
Definition filter_for (report_type : string) : option dict :=
  if decide (report_type = "sales") then Some {[ "type" := VStr "sales" ]}
  else if decide (report_type = "marketing") then Some {[ "type" := VStr "marketing" ]}
  else None.

(** The words an optional argument adds to the search text of a report:
    none when the argument is missing or empty, else a space, the words
    before, the argument and the words after. *)
Definition spliced (before : string) (part : option string) (after : string) : string :=
  match part with
  | None => ""
  | Some p => if decide (p = "") then "" else " " +:+ before +:+ p +:+ after
  end.

(** The start line of [generate_report_with_autogen_multiagent]. *)
Definition start_line : string := nl +:+ "[AutoGen] Starting Multi-Agent Analysis...".

(** One sale and one campaign with every key. *)
Definition widget_sale : dict :=
  list_to_map
    [ ("description", VStr "Q3 revenue up 12%"); ("id", VInt 7);
      ("product", VStr "Widget A"); ("category", VStr "Hardware");
      ("revenue", VInt 500000); ("units_sold", VInt 120);
      ("region", VStr "NA"); ("quarter", VStr "Q3");
      ("customer_segment", VStr "Enterprise"); ("sales_rep", VStr "Asha") ].

Definition spring_campaign : dict :=
  list_to_map
    [ ("description", VStr "Email campaign generated strong engagement");
      ("id", VInt 7); ("campaign_name", VStr "Spring Blast");
      ("channel", VStr "Email"); ("budget", VInt 10000);
      ("impressions", VInt 90000); ("clicks", VInt 4100);
      ("conversions", VInt 230); ("quarter", VStr "Q2");
      ("target_segment", VStr "SMB") ].

(** A hit without a type, and one whose type is a number. *)
Definition untyped_hit : raw_hit :=
  {| hit_document := "Inventory note";
     hit_metadata := {[ "region" := VStr "NA" ]};
     hit_distance := decimal 25 2 |}.

Definition numbered_hit : raw_hit :=
  {| hit_document := "Inventory note";
     hit_metadata := {[ "type" := VInt 3 ]};
     hit_distance := decimal 25 2 |}.

(** Outside worlds: one whose store cannot be opened, and one whose
    generation service answers the analyst and fails the writer. *)
Definition closed_world : Externals :=
  {| OPENAI_API_KEY := "sk-demo";
     client := unit;
     collection := unit;
     persistent_client := fun _ _ => Raise (External "IndexUnavailable");
     get_collection := fun _ _ => Ret tt;
     create_collection := fun _ _ _ => Ret tt;
     collection_query := fun _ _ => Ret (batch_of [widget_hit]);
     completion := fun _ agent _ => Ret ("Answer of " +:+ agent_name agent) |}.

Definition writer_down_world : Externals :=
  {| OPENAI_API_KEY := "sk-demo";
     client := unit;
     collection := unit;
     persistent_client := fun _ _ => Ret tt;
     get_collection := fun _ _ => Ret tt;
     create_collection := fun _ _ _ => Ret tt;
     collection_query := fun _ _ => Ret (batch_of [widget_hit]);
     completion := fun _ agent _ =>
       if decide (agent_name agent = "report_writer")
       then Raise (External "GenerationServiceError")
       else Ret ("Answer of " +:+ agent_name agent) |}.

(** A store that accepts every write, for [answering_world]. *)
Definition accepting_store : @StoreAdmin answering_world :=
  {| collection_add := fun _ _ _ _ => Ret tt;
     collection_count := fun _ => Ret 2;
     collection_name := fun _ => COLLECTION_NAME;
     delete_collection := fun _ _ => Ret tt |}.

(** A store that rejects every write. *)
Definition rejecting_store : @StoreAdmin answering_world :=
  {| collection_add := fun _ _ _ _ => Raise (External "StoreFull");
     collection_count := fun _ => Ret 0;
     collection_name := fun _ => COLLECTION_NAME;
     delete_collection := fun _ _ => Raise (External "NotFound") |}.

End VocabularyMore.
Export VocabularyMore.

(** ** Facts about strings and traces *)

Lemma append_cons (x : ascii) (a b : string) : String x a +:+ b = String x (a +:+ b).
Proof. reflexivity. Qed.

Lemma append_assoc (a b c : string) : (a +:+ b) +:+ c = a +:+ (b +:+ c).
Proof.
  induction a as [|x a IH]; [reflexivity|].
  now rewrite !append_cons, IH.
Qed.

Lemma append_empty_r (a : string) : a +:+ "" = a.
Proof.
  induction a as [|x a IH]; [reflexivity|].
  now rewrite append_cons, IH.
Qed.

Lemma contains_refl (s : string) : contains s s.
Proof. exists "", "". simpl. now rewrite append_empty_r. Qed.

Lemma contains_app_l (a t s : string) : contains t s -> contains (a +:+ t) s.
Proof.
  intros (pre & post & ->). exists (a +:+ pre), post. now rewrite append_assoc.
Qed.

Lemma contains_app_r (a t s : string) : contains t s -> contains (t +:+ a) s.
Proof.
  intros (pre & post & ->). exists pre, (post +:+ a).
  now rewrite !append_assoc.
Qed.

Lemma contains_trans (a b c : string) : contains a b -> contains b c -> contains a c.
Proof.
  intros (p1 & q1 & ->) (p2 & q2 & ->).
  exists (p1 +:+ p2), (q2 +:+ q1). now rewrite !append_assoc.
Qed.

Lemma prefixb_sound (s t : string) : prefixb s t = true -> exists post, t = s +:+ post.
Proof.
  revert t. induction s as [|a s IH]; intros t Hp.
  - now exists t.
  - destruct t as [|b t]; simpl in Hp; [discriminate|].
    destruct (decide (a = b)) as [->|]; [|discriminate].
    destruct (IH _ Hp) as [post ->]. now exists post.
Qed.

Lemma containsb_sound (t s : string) : containsb t s = true -> contains t s.
Proof.
  induction t as [|b t IH]; simpl.
  - destruct (prefixb s "") eqn:Hp; [|discriminate].
    intros _. destruct (prefixb_sound _ _ Hp) as [post Hpost]. now exists "", post.
  - destruct (prefixb s (String b t)) eqn:Hp.
    + intros _. destruct (prefixb_sound _ _ Hp) as [post Hpost]. now exists "", post.
    + intros Hc. destruct (IH Hc) as (pre & post & ->).
      now exists (String b pre), post.
Qed.

(** An element of a joined list is part of the result. *)
Lemma contains_join (sep : string) (parts : list string) (p : string) :
  p ∈ parts -> contains (join sep parts) p.
Proof.
  induction parts as [|q parts IH]; intros Hin.
  - inversion Hin.
  - destruct parts as [|q' parts].
    + apply list_elem_of_singleton in Hin as ->. apply contains_refl.
    + change (join sep (q :: q' :: parts)) with (q +:+ sep +:+ join sep (q' :: parts)).
      apply elem_of_cons in Hin as [->|Hin].
      * apply contains_app_r, contains_refl.
      * apply contains_app_l, contains_app_l, IH, Hin.
Qed.

Lemma searches_app (a b : trace) : searches (a ++ b) = searches a ++ searches b.
Proof. apply omap_app. Qed.

Lemma generations_app (a b : trace) : generations (a ++ b) = generations a ++ generations b.
Proof. apply omap_app. Qed.

(** Unfolds one layer of the monad. *)
Ltac run :=
  unfold mbind, py_bind, mret, py_ret, bind, ret, lift, raise, print, emit; simpl.

(** ** The two-stage generation protocol *)
Section TwoStage.
Context `{Unicode} `{Externals}.

Lemma initiate_chat_ok (proxy : user_proxy_agent) (agent : assistant_agent)
    (prompt reply : string) (tr : trace) :
  completion tr agent prompt = Ret reply ->
  exists proxy',
    initiate_chat proxy agent prompt tr = (Ret proxy', tr ++ [Generated agent prompt]) /\
    last_message proxy' agent = Ret {| msg_role := "user"; msg_content := reply |}.
Proof.
  intros Hreply. unfold initiate_chat. rewrite Hreply.
  eexists. split; [reflexivity|].
  unfold last_message. simpl. now rewrite lookup_insert_eq.
Qed.

Lemma initiate_chat_raise (proxy : user_proxy_agent) (agent : assistant_agent)
    (prompt : string) (e : exn) (tr : trace) :
  completion tr agent prompt = Raise e ->
  initiate_chat proxy agent prompt tr = (Raise e, tr ++ [Generated agent prompt]).
Proof. intros Hfail. unfold initiate_chat. now rewrite Hfail. Qed.

Lemma report_prompt_contains (query analyst_findings : string) :
  contains (report_prompt query analyst_findings) analyst_findings.
Proof.
  unfold report_prompt, text. apply contains_join.
  do 5 apply list_elem_of_further. apply list_elem_of_here.
Qed.

(** What [analyse_then_write] does once the analyst has answered. *)
Lemma analyse_then_write_after_analyst (query context findings : string) (tr : trace) :
  completion (at_analyst tr) create_data_analyst_agent (analysis_prompt query context)
    = Ret findings ->
  analyse_then_write query context tr =
    match completion (at_writer query context tr) create_report_writer_agent
            (report_prompt query findings) with
    | Ret report =>
        (Ret report,
         at_writer query context tr
           ++ [Generated create_report_writer_agent (report_prompt query findings)]
           ++ [Printed ("[AutoGen] Multi-Agent Report Generation Complete!" +:+ nl)])
    | Raise e =>
        (Raise e,
         at_writer query context tr
           ++ [Generated create_report_writer_agent (report_prompt query findings)])
    end.
Proof.
  intros Hanalyst.
  destruct (initiate_chat_ok create_user_proxy _ _ _ _ Hanalyst) as (proxy1 & Hchat1 & Hlast1).
  unfold analyse_then_write. run.
  fold (at_analyst tr). rewrite Hchat1, Hlast1. simpl.
  replace ((at_analyst tr ++ [Generated create_data_analyst_agent (analysis_prompt query context)])
             ++ [Printed "[AutoGen] Agent 2 (Report Writer) - Creating report..."])
    with (at_writer query context tr) by (unfold at_writer; now rewrite app_assoc).
  destruct (completion (at_writer query context tr) create_report_writer_agent
              (report_prompt query findings)) as [report|e] eqn:Hwriter.
  - destruct (initiate_chat_ok proxy1 _ _ _ _ Hwriter) as (proxy2 & Hchat2 & Hlast2).
    rewrite Hchat2, Hlast2. simpl. now rewrite <- app_assoc.
  - now rewrite (initiate_chat_raise proxy1 _ _ _ _ Hwriter).
Qed.

(** C1.  Whatever the query and the composed context: when the analyst's
    call answers, the pipeline issues exactly two generation calls, the
    analyst's and then the writer's; the writer's prompt contains the
    analyst's whole answer; and the pipeline returns what the writer's
    call returns (its text unchanged, or its failure). *)
Theorem two_stage_pipeline_two_calls (query context findings : string) (tr : trace) :
  completion (at_analyst tr) create_data_analyst_agent (analysis_prompt query context)
    = Ret findings ->
  generations (analyse_then_write query context tr).2 =
    generations tr
      ++ [(create_data_analyst_agent, analysis_prompt query context);
          (create_report_writer_agent, report_prompt query findings)]
  /\ contains (report_prompt query findings) findings
  /\ (analyse_then_write query context tr).1 =
       completion (at_writer query context tr) create_report_writer_agent
         (report_prompt query findings).
Proof.
  intros Hanalyst.
  rewrite (analyse_then_write_after_analyst _ _ _ _ Hanalyst).
  split; [|split].
  - destruct (completion (at_writer query context tr) _ _); simpl;
      unfold at_writer, at_analyst; rewrite !generations_app; simpl;
      rewrite ?app_nil_r, <- ?app_assoc; reflexivity.
  - apply report_prompt_contains.
  - now destruct (completion (at_writer query context tr) _ _).
Qed.

(** C2.  When the analyst's call fails, the pipeline raises that very
    exception to its caller, and its trace holds one generation call, the
    analyst's: the writer is never asked. *)
Theorem analyst_failure_stops_pipeline (query context : string) (e : exn) (tr : trace) :
  completion (at_analyst tr) create_data_analyst_agent (analysis_prompt query context)
    = Raise e ->
  analyse_then_write query context tr =
    (Raise e,
     at_analyst tr ++ [Generated create_data_analyst_agent (analysis_prompt query context)])
  /\ generations (analyse_then_write query context tr).2 =
       generations tr ++ [(create_data_analyst_agent, analysis_prompt query context)].
Proof.
  intros Hanalyst.
  assert (Hrun : analyse_then_write query context tr =
    (Raise e,
     at_analyst tr ++ [Generated create_data_analyst_agent (analysis_prompt query context)])).
  { unfold analyse_then_write. run. fold (at_analyst tr).
    now rewrite (initiate_chat_raise create_user_proxy _ _ _ _ Hanalyst). }
  split; [exact Hrun|].
  rewrite Hrun. simpl. unfold at_analyst. rewrite !generations_app. simpl.
  now rewrite app_nil_r.
Qed.

(** The same failure, seen by the caller of the whole report function. *)
Lemma report_fails_with_analyst (query report_type context : string) (n_results : Z)
    (e : exn) (tr0 tr : trace) :
  retrieve_context query report_type n_results
    (tr0 ++ [Printed (nl +:+ "[AutoGen] Starting Multi-Agent Analysis...")])
    = (Ret context, tr) ->
  completion (at_analyst tr) create_data_analyst_agent (analysis_prompt query context)
    = Raise e ->
  generate_report_with_autogen_multiagent query report_type n_results tr0 =
    (Raise e,
     at_analyst tr ++ [Generated create_data_analyst_agent (analysis_prompt query context)]).
Proof.
  intros Hctx Hanalyst.
  unfold generate_report_with_autogen_multiagent, analyse_then_write. run.
  fold nl. rewrite Hctx. fold (at_analyst tr).
  now rewrite (initiate_chat_raise create_user_proxy _ _ _ _ Hanalyst).
Qed.

End TwoStage.

(** ** Subtracting a float above one from one *)
Section FloatFacts.

Lemma iter_pos_nat {A} (f : A -> A) (p : positive) (x : A) :
  SpecFloat.iter_pos f p x = Nat.iter (Pos.to_nat p) f x.
Proof.
  revert x. induction p as [p IH|p IH|]; intros x; cbn [SpecFloat.iter_pos].
  - rewrite !IH, Pos2Nat.inj_xI, <- Nat.iter_add, <- Nat.iter_succ_r.
    f_equal. lia.
  - rewrite !IH, Pos2Nat.inj_xO, <- Nat.iter_add. f_equal. lia.
  - reflexivity.
Qed.

Lemma shr_1_positive (mrs : shr_record) (p : positive) :
  shr_m mrs = Z.pos p -> (1 < digits2_pos p)%positive ->
  exists p', shr_m (shr_1 mrs) = Z.pos p' /\ Pos.succ (digits2_pos p') = digits2_pos p.
Proof.
  destruct mrs as [m r s]. simpl. intros -> Hdigits.
  destruct p as [p|p|]; simpl in *; [now exists p..|lia].
Qed.

Lemma shr_iter_positive (k : nat) (mrs : shr_record) (p : positive) :
  shr_m mrs = Z.pos p -> Z.of_nat k < Z.pos (digits2_pos p) ->
  exists p', shr_m (Nat.iter k shr_1 mrs) = Z.pos p'
             /\ Z.pos (digits2_pos p') = Z.pos (digits2_pos p) - Z.of_nat k.
Proof.
  intros Hm. induction k as [|k IH]; intros Hk.
  - exists p. split; [exact Hm | lia].
  - destruct IH as (p1 & Hp1 & Hd1); [lia|].
    destruct (shr_1_positive _ _ Hp1) as (p2 & Hp2 & Hd2); [lia|].
    exists p2. split; [exact Hp2 | lia].
Qed.

Lemma shr_record_of_loc_m (m : Z) (l : location) : shr_m (shr_record_of_loc m l) = m.
Proof. now destruct l as [|[]]. Qed.

Lemma shr_fexp_positive (p : positive) (e : Z) (l : location) :
  emin prec emax <= e ->
  exists p', shr_m (shr_fexp prec emax (Z.pos p) e l).1 = Z.pos p'
             /\ emin prec emax <= (shr_fexp prec emax (Z.pos p) e l).2.
Proof.
  intros He. unfold shr_fexp, shr.
  destruct (fexp prec emax (Zdigits2 (Z.pos p) + e) - e) as [|q|q] eqn:Hn; simpl.
  - exists p. now rewrite shr_record_of_loc_m.
  - rewrite iter_pos_nat.
    destruct (shr_iter_positive (Pos.to_nat q) (shr_record_of_loc (Z.pos p) l) p)
      as (p' & Hp' & _).
    + apply shr_record_of_loc_m.
    + unfold fexp, emin, prec, emax in *. simpl in Hn. lia.
    + exists p'. split; [exact Hp' | lia].
  - exists p. now rewrite shr_record_of_loc_m.
Qed.

Lemma round_nearest_even_positive (p : positive) (l : location) :
  exists p', round_nearest_even (Z.pos p) l = Z.pos p'.
Proof.
  destruct l as [|[]]; simpl; try (now eexists).
  destruct p; simpl; now eexists.
Qed.

Lemma binary_round_aux_sign (p : positive) (e : Z) (l : location) :
  emin prec emax <= e ->
  negative (binary_round_aux prec emax true (Z.pos p) e l).
Proof.
  intros He. unfold binary_round_aux.
  destruct (shr_fexp_positive p e l He) as (p1 & Hp1 & He1).
  destruct (shr_fexp prec emax (Z.pos p) e l) as [mrs1 e1]. simpl in Hp1, He1.
  rewrite Hp1.
  destruct (round_nearest_even_positive p1 (loc_of_shr_record mrs1)) as [p2 ->].
  destruct (shr_fexp_positive p2 e1 loc_Exact He1) as (p3 & Hp3 & He3).
  destruct (shr_fexp prec emax (Z.pos p2) e1 loc_Exact) as [mrs3 e3]. simpl in Hp3.
  rewrite Hp3. destruct (e3 <=? emax - prec); [left; now eexists _, _ | now right].
Qed.

Lemma binary_round_sign (p : positive) (e : Z) :
  emin prec emax <= e -> negative (binary_round prec emax true p e).
Proof.
  intros He. unfold binary_round.
  destruct (shl_align p e (fexp prec emax (Z.pos (digits2_pos p) + e))) as [mz ez] eqn:Hal.
  apply binary_round_aux_sign.
  unfold shl_align in Hal.
  destruct (fexp prec emax (Z.pos (digits2_pos p) + e) - e);
    injection Hal as <- <-; try exact He.
  unfold fexp. lia.
Qed.

Lemma digits2_pos_size (p : positive) : digits2_pos p = Pos.size p.
Proof. induction p as [p IH|p IH|]; simpl; now rewrite ?IH. Qed.

Lemma digits2_pos_lower (p : positive) : 2 ^ (Z.pos (digits2_pos p) - 1) <= Z.pos p.
Proof.
  pose proof (Pos.size_le p) as Hsize. rewrite <- digits2_pos_size in Hsize.
  apply Pos2Z.pos_le_pos in Hsize. rewrite Pos2Z.inj_pow in Hsize.
  replace (Z.pos (digits2_pos p)) with (Z.succ (Z.pos (digits2_pos p) - 1)) in Hsize by lia.
  rewrite Z.pow_succ_r in Hsize by lia. lia.
Qed.

Lemma shl_align_value (m : positive) (e ez : Z) :
  ez <= e -> Z.pos (shl_align m e ez).1 = Z.pos m * 2 ^ (e - ez).
Proof.
  intros Hle. unfold shl_align. destruct (ez - e) as [|q|q] eqn:Hd; simpl.
  - replace (e - ez) with 0 by lia. lia.
  - lia.
  - change (Pos.iter xO m q) with (shift_pos q m). rewrite shift_pos_correct.
    replace (e - ez) with (Z.pos q) by lia. change (Z.pow_pos 2 q) with (2 ^ Z.pos q). lia.
Qed.

Lemma one_minus_negative (d : float) :
  valid_binary prec emax d = true ->
  float_ltb (float_of_int 1) d = true ->
  negative (float_sub (float_of_int 1) d).
Proof.
  intros Hvalid Hgt.
  change (float_of_int 1) with (S754_finite false 4503599627370496 (-52)) in *.
  destruct d as [s|s| |s m e]; try discriminate.
  - destruct s; [discriminate|]. now right.
  - destruct s; [discriminate|].
    unfold float_ltb, SFltb, SFcompare in Hgt.
    unfold valid_binary, bounded, canonical_mantissa, fexp, emin, prec, emax in Hvalid.
    apply andb_prop in Hvalid as [Hcanon _]. apply Z.eqb_eq in Hcanon.
    pose proof (digits2_pos_lower m) as Hlow.
    assert (Hm : -52 <= e /\ 2 ^ 52 < Z.pos m * 2 ^ (e + 52)).
    { destruct (Z.compare_spec (-52) e) as [<-|Hlt|Hlt]; try discriminate.
      - split; [lia|]. rewrite Pos.compare_cont_spec in Hgt. simpl in Hgt.
        destruct (Pos.compare_spec 4503599627370496 m) as [|Hlt|]; try discriminate.
        change (2 ^ (-52 + 52)) with 1. change (2 ^ 52) with 4503599627370496. lia.
      - split; [lia|].
        assert (Hdigits : Z.pos (digits2_pos m) = 53) by lia.
        rewrite Hdigits in Hlow. change (2 ^ (53 - 1)) with (2 ^ 52) in Hlow.
        replace (e + 52) with (Z.succ (e + 51)) by lia.
        rewrite Z.pow_succ_r by lia.
        assert (0 < 2 ^ (e + 51)) by (apply Z.pow_pos_nonneg; lia).
        change (2 ^ 52) with 4503599627370496 in *. nia. }
    destruct Hm as [He Hm].
    unfold float_sub, SFsub. rewrite Z.min_l by exact He.
    unfold cond_Zopp. rewrite !shl_align_value by lia.
    replace (e - -52) with (e + 52) by lia.
    change (Z.pos 4503599627370496 * 2 ^ (-52 - -52)) with (2 ^ 52).
    destruct (2 ^ 52 - Z.pos m * 2 ^ (e + 52)) as [|q|q] eqn:Hdiff; try lia.
    unfold binary_normalize. apply binary_round_sign. unfold emin, prec, emax. lia.
Qed.

Lemma negative_below_zero (x : float) : negative x -> float_ltb x (float_of_int 0) = true.
Proof. intros [(m & e & ->)| ->]; reflexivity. Qed.

Lemma negative_format (x : float) : negative x -> exists digits, format_2f x = "-" +:+ digits.
Proof. intros [(m & e & ->)| ->]; simpl; unfold fixed2; now eexists. Qed.

End FloatFacts.

(** ** Normalising the raw hits *)
Section Normalize.

Lemma zip3_batch (hits : list raw_hit) :
  zip3 (hit_document <$> hits) (hit_metadata <$> hits) (hit_distance <$> hits)
  = (fun h => (hit_document h, hit_metadata h, hit_distance h)) <$> hits.
Proof.
  induction hits as [|h hits IH]; [reflexivity|].
  rewrite !fmap_cons. cbn [zip3]. now rewrite IH.
Qed.

Lemma format_batch (hits : list raw_hit) :
  format_retrieval_results (Some (batch_of hits)) =
    Ret (FList (imap (fun i h =>
                        make_item i (hit_document h, hit_metadata h, hit_distance h)) hits)).
Proof.
  unfold format_retrieval_results, batch_of. simpl.
  rewrite zip3_batch, imap_fmap. reflexivity.
Qed.

Lemma format_batch_lookup (hits : list raw_hit) (i : nat) (h : raw_hit) :
  hits !! i = Some h ->
  exists items,
    format_retrieval_results (Some (batch_of hits)) = Ret (FList items) /\
    length items = length hits /\
    items !! i = Some (make_item i (hit_document h, hit_metadata h, hit_distance h)).
Proof.
  intros Hi. eexists. split; [apply format_batch|]. split.
  - apply length_imap.
  - rewrite list_lookup_imap, Hi. reflexivity.
Qed.

(** C3 (the code departs from it).  An answer of the store that holds no
    hit passes the guard, because its list of documents holds one (empty)
    batch: it is turned into the empty list of entries, not into the
    sentinel.  An answer that has documents but no metadata list raises
    [KeyError]. *)
Theorem format_retrieval_results_misses_sentinel :
  format_retrieval_results (Some no_hits) = Ret (FList [])
  /\ format_retrieval_results (Some no_hits) ≠ Ret (FStr sentinel)
  /\ format_retrieval_results (Some documents_only) = Raise (KeyError "metadatas").
Proof. split; [reflexivity | split; [discriminate | reflexivity]]. Qed.

(** Where the guard of [format_retrieval_results] does fire: no answer at
    all, or no (or an empty) list of documents. *)
Lemma format_guard (results : option query_result) :
  match results with
  | None => true
  | Some r => falsy_entry (documents r)
  end = true ->
  format_retrieval_results results = Ret (FStr sentinel).
Proof.
  destruct results as [r|]; [|reflexivity].
  intros Hdocs. unfold format_retrieval_results. rewrite Hdocs.
  now rewrite orb_true_r.
Qed.

(** C4.  A non-empty list of hits is normalised into a list of the same
    length; the entry at each position is made from the hit at that
    position (no re-ordering), and its rank is the position counted from
    1, so ranks grow strictly along the list. *)
Theorem normalize_keeps_order (hits : list raw_hit) :
  hits ≠ [] ->
  exists items,
    format_retrieval_results (Some (batch_of hits)) = Ret (FList items)
    /\ length items = length hits
    /\ (forall i h, hits !! i = Some h ->
          exists it, items !! i = Some it
            /\ rank it = Z.of_nat i + 1
            /\ content it = hit_document h
            /\ metadata it = hit_metadata h)
    /\ (forall i j a b, items !! i = Some a -> items !! j = Some b ->
          (i < j)%nat -> rank a < rank b).
Proof.
  intros _. eexists. split; [apply format_batch|]. split; [apply length_imap|]. split.
  - intros i h Hi. eexists. split.
    + rewrite list_lookup_imap, Hi. reflexivity.
    + now simpl.
  - intros i j a b Ha Hb Hij.
    rewrite list_lookup_imap in Ha, Hb.
    destruct (hits !! i) as [hi|]; [|discriminate].
    destruct (hits !! j) as [hj|]; [|discriminate].
    simpl in Ha, Hb. injection Ha as <-. injection Hb as <-. simpl. lia.
Qed.

(** C5.  The score of every entry is exactly one minus the distance of its
    hit, in floating point and with no clamping: for a distance above one
    the score is below zero, the normaliser still returns normally, and the
    composer prints the score with its minus sign. *)
Theorem relevance_is_one_minus_distance (hits : list raw_hit) (i : nat) (h : raw_hit) :
  hits !! i = Some h ->
  exists items it,
    format_retrieval_results (Some (batch_of hits)) = Ret (FList items)
    /\ items !! i = Some it
    /\ relevance_score it = float_sub (float_of_int 1) (hit_distance h)
    /\ (valid_binary prec emax (hit_distance h) = true ->
        float_ltb (float_of_int 1) (hit_distance h) = true ->
        float_ltb (relevance_score it) (float_of_int 0) = true
        /\ exists digits, format_2f (relevance_score it) = "-" +:+ digits).
Proof.
  intros Hi. destruct (format_batch_lookup hits i h Hi) as (items & Hfmt & _ & Hit).
  exists items. eexists. split; [exact Hfmt|]. split; [exact Hit|].
  split; [reflexivity|]. intros Hvalid Hgt. cbn [make_item relevance_score].
  pose proof (one_minus_negative _ Hvalid Hgt) as Hneg.
  split; [now apply negative_below_zero | now apply negative_format].
Qed.

End Normalize.

(** ** Composing the context string *)
Section Compose.
Context `{Unicode}.

(** On entries whose types are ASCII text every interpreter composes the
    same string: the one computed with the ASCII rule. *)
Lemma item_parts_on_ascii (it : context_item) :
  ascii_typed it = true -> item_parts it = @item_parts ascii_interpreter it.
Proof.
  unfold ascii_typed, item_parts. destruct (type_ it) as [t| |]; [|reflexivity..].
  intros Hascii. now rewrite (upper_isascii t Hascii).
Qed.

Lemma append_items_on_ascii (items : list context_item) (context_parts : list string) :
  forallb ascii_typed items = true ->
  append_items context_parts items = @append_items ascii_interpreter context_parts items.
Proof.
  revert context_parts. induction items as [|item rest IH]; intros context_parts Hascii.
  - reflexivity.
  - cbn [forallb] in Hascii. apply andb_true_iff in Hascii as [Hitem Hrest].
    cbn [append_items]. rewrite (item_parts_on_ascii item Hitem).
    destruct (@item_parts ascii_interpreter item) as [parts|e]; [|reflexivity].
    apply IH, Hrest.
Qed.

Lemma create_context_string_on_ascii (items : list context_item) :
  forallb ascii_typed items = true ->
  create_context_string (FList items) = @create_context_string ascii_interpreter (FList items).
Proof.
  intros Hascii. unfold create_context_string.
  now rewrite (append_items_on_ascii items _ Hascii).
Qed.

(** With string-typed entries the loop never raises: it appends the lines
    of each entry in turn. *)
Lemma append_items_ok (items : list context_item) (context_parts : list string) :
  (forall it, it ∈ items -> exists t, type_ it = VStr t) ->
  exists added,
    append_items context_parts items = Ret (context_parts ++ added) /\
    forall it, it ∈ items ->
      exists parts, item_parts it = Ret parts /\ forall p, p ∈ parts -> p ∈ added.
Proof.
  revert context_parts.
  induction items as [|item rest IH]; intros context_parts Htypes.
  - exists []. split; [now rewrite app_nil_r|]. intros it Hin. inversion Hin.
  - destruct (Htypes item (list_elem_of_here _ _)) as [t Ht].
    destruct (item_parts item) as [parts|e] eqn:Hparts;
      [|unfold item_parts in Hparts; rewrite Ht in Hparts; discriminate].
    destruct (IH (context_parts ++ parts)) as (added & Hrun & Hall).
    { intros it Hin. apply Htypes. now apply list_elem_of_further. }
    exists (parts ++ added). split.
    + cbn [append_items]. rewrite Hparts.
      change (append_items (context_parts ++ parts) rest
              = Ret (context_parts ++ parts ++ added)).
      now rewrite Hrun, app_assoc.
    + intros it Hin. apply elem_of_cons in Hin as [->|Hin].
      * exists parts. split; [exact Hparts|]. intros p Hp.
        apply elem_of_app. now left.
      * destruct (Hall it Hin) as (ps & Hps & Hsub). exists ps. split; [exact Hps|].
        intros p Hp. apply elem_of_app. right. now apply Hsub.
Qed.

(** The line that carries the metadata of a sales or marketing entry shows
    [None] after the label of every key the metadata lacks. *)
Lemma item_parts_marker (it : context_item) (t key label : string) :
  type_ it = VStr t ->
  (key, label) ∈ expected_fields t ->
  metadata it !! key = None ->
  exists parts line,
    item_parts it = Ret parts /\ line ∈ parts /\ contains line (label +:+ "None").
Proof.
  intros Ht Hfield Hnone. unfold item_parts. rewrite Ht.
  unfold expected_fields in Hfield.
  destruct (decide (t = "sales")) as [->|Hsales].
  - eexists. eexists. split; [reflexivity|]. split.
    + apply elem_of_app. right. cbn [decide]. rewrite decide_True by reflexivity.
      apply list_elem_of_here.
    + repeat (apply elem_of_cons in Hfield as [Hfield|Hfield]);
        [injection Hfield as -> -> ..|inversion Hfield]; rewrite Hnone; cbn [str_opt].
      * exists "   ", (", Revenue: $" +:+ str_opt (metadata it !! "revenue")
                        +:+ ", Region: " +:+ str_opt (metadata it !! "region")
                        +:+ ", Quarter: " +:+ str_opt (metadata it !! "quarter")).
        reflexivity.
      * do 2 apply contains_app_l. eexists ", ", _. reflexivity.
      * do 4 apply contains_app_l. eexists ", ", _. reflexivity.
      * do 6 apply contains_app_l. exists ", ", "". reflexivity.
  - destruct (decide (t = "marketing")) as [->|Hmarketing]; [|inversion Hfield].
    eexists. eexists. split; [reflexivity|]. split.
    + apply elem_of_app. right. rewrite decide_False by (intros [= ?]; discriminate).
      rewrite decide_True by reflexivity. apply list_elem_of_here.
    + repeat (apply elem_of_cons in Hfield as [Hfield|Hfield]);
        [injection Hfield as -> -> ..|inversion Hfield]; rewrite Hnone; cbn [str_opt].
      * eexists "   ", _. reflexivity.
      * do 2 apply contains_app_l. eexists ", ", _. reflexivity.
      * do 4 apply contains_app_l. eexists ", ", _. reflexivity.
      * do 6 apply contains_app_l. exists ", ", "". reflexivity.
Qed.

(** The composer returns a string it is given unchanged, the sentinel in
    particular; hence normalising and then composing yields exactly the
    sentinel when there is no answer, when the answer has no list of
    documents, and when that list is empty. *)
Lemma compose_passes_sentinel_through :
  create_context_string (FStr sentinel) = Ret "No relevant information found."
  /\ (forall s, create_context_string (FStr s) = Ret s)
  /\ format_retrieval_results None ≫= create_context_string = Ret sentinel
  /\ (forall metadatas distances,
        format_retrieval_results
          (Some {| documents := None; metadatas := metadatas; distances := distances |})
          ≫= create_context_string = Ret sentinel)
  /\ (forall metadatas distances,
        format_retrieval_results
          (Some {| documents := Some []; metadatas := metadatas; distances := distances |})
          ≫= create_context_string = Ret sentinel).
Proof.
  split; [reflexivity|]. split; [reflexivity|]. split; [reflexivity|].
  split; intros metadatas distances; rewrite format_guard; reflexivity.
Qed.

(** C6 (the code departs from it).  The composer does return the sentinel
    unchanged, but an answer of the store that holds no hit never reaches
    it as the sentinel: normalising and composing that answer yields the
    bare header line. *)
Theorem empty_answer_composes_to_header :
  create_context_string (FStr sentinel) = Ret sentinel
  /\ format_retrieval_results (Some no_hits) ≫= create_context_string
       = Ret ("Retrieved relevant information:" +:+ nl)
  /\ format_retrieval_results (Some no_hits) ≫= create_context_string ≠ Ret sentinel.
Proof. split; [reflexivity | split; [reflexivity | discriminate]]. Qed.

(** The line that carries the metadata of a sales or marketing entry. *)
Lemma item_parts_metadata_line (it : context_item) :
  (type_ it = VStr "sales" ->
   exists heading,
     item_parts it =
       Ret [ heading; "   " +:+ content it;
             "   Product: " +:+ field_text (metadata it !! "product")
               +:+ ", Revenue: $" +:+ field_text (metadata it !! "revenue")
               +:+ ", Region: " +:+ field_text (metadata it !! "region")
               +:+ ", Quarter: " +:+ field_text (metadata it !! "quarter") ])
  /\ (type_ it = VStr "marketing" ->
      exists heading,
        item_parts it =
          Ret [ heading; "   " +:+ content it;
                "   Campaign: " +:+ field_text (metadata it !! "campaign_name")
                  +:+ ", Channel: " +:+ field_text (metadata it !! "channel")
                  +:+ ", Budget: $" +:+ field_text (metadata it !! "budget")
                  +:+ ", Conversions: " +:+ field_text (metadata it !! "conversions") ]).
Proof.
  split; intros Ht; unfold item_parts; rewrite Ht; eexists.
  - rewrite decide_True by reflexivity. reflexivity.
  - rewrite decide_False by (intros [= ?]; discriminate).
    rewrite decide_True by reflexivity. reflexivity.
Qed.

(** The line shows the value of every key the metadata has. *)
Lemma item_parts_value (it : context_item) (t key label : string) (v : value) :
  type_ it = VStr t ->
  (key, label) ∈ expected_fields t ->
  metadata it !! key = Some v ->
  exists parts line,
    item_parts it = Ret parts /\ line ∈ parts /\ contains line (label +:+ str v).
Proof.
  intros Ht Hfield Hsome. unfold item_parts. rewrite Ht.
  unfold expected_fields in Hfield.
  destruct (decide (t = "sales")) as [->|Hsales].
  - eexists. eexists. split; [reflexivity|]. split.
    + apply elem_of_app. right. cbn [decide]. rewrite decide_True by reflexivity.
      apply list_elem_of_here.
    + repeat (apply elem_of_cons in Hfield as [Hfield|Hfield]);
        [injection Hfield as -> -> ..|inversion Hfield]; rewrite Hsome; cbn [str_opt].
      * eexists "   ", _. reflexivity.
      * do 2 apply contains_app_l. eexists ", ", _. reflexivity.
      * do 4 apply contains_app_l. eexists ", ", _. reflexivity.
      * do 6 apply contains_app_l. exists ", ", "". now rewrite append_empty_r.
  - destruct (decide (t = "marketing")) as [->|Hmarketing]; [|inversion Hfield].
    eexists. eexists. split; [reflexivity|]. split.
    + apply elem_of_app. right. rewrite decide_False by (intros [= ?]; discriminate).
      rewrite decide_True by reflexivity. apply list_elem_of_here.
    + repeat (apply elem_of_cons in Hfield as [Hfield|Hfield]);
        [injection Hfield as -> -> ..|inversion Hfield]; rewrite Hsome; cbn [str_opt].
      * eexists "   ", _. reflexivity.
      * do 2 apply contains_app_l. eexists ", ", _. reflexivity.
      * do 4 apply contains_app_l. eexists ", ", _. reflexivity.
      * do 6 apply contains_app_l. exists ", ", "". now rewrite append_empty_r.
Qed.

(** The loop raises exactly when it meets an entry whose type is no
    string; the metadata of the entries plays no part in it. *)
Lemma append_items_raises_iff (items : list context_item) (context_parts : list string) :
  (exists e, append_items context_parts items = Raise e)
  <-> exists it, it ∈ items /\ forall t, type_ it ≠ VStr t.
Proof.
  revert context_parts. induction items as [|item rest IH]; intros context_parts.
  - split; [intros [e He]; discriminate | intros (it & Hin & _); inversion Hin].
  - cbn [append_items].
    destruct (item_parts item) as [parts|e] eqn:Hparts.
    + change (Ret parts ≫= (fun parts => append_items (context_parts ++ parts) rest))
        with (append_items (context_parts ++ parts) rest).
      assert (Ht : exists t, type_ item = VStr t).
      { unfold item_parts in Hparts. destruct (type_ item) as [t| |]; [|discriminate..].
        now exists t. }
      destruct Ht as [t Ht].
      rewrite IH. split; intros (it & Hin & Hno).
      * exists it. split; [now apply list_elem_of_further | exact Hno].
      * apply elem_of_cons in Hin as [->|Hin]; [now destruct (Hno t)|].
        now exists it.
    + split; [intros _ | intros _; eexists; reflexivity].
      exists item. split; [apply list_elem_of_here|]. intros t Ht.
      unfold item_parts in Hparts. rewrite Ht in Hparts. discriminate.
Qed.

(** C7.  A missing metadata field never makes the composer fail: it
    raises exactly when some entry has a type that is no string, whatever
    the metadata holds.  On entries whose types are strings it returns a
    string that begins with the header and contains, for every entry, the
    ranked line and the content line, and for every sales or marketing
    entry the whole metadata line, in which each expected field shows its
    value when the metadata has it and [None] when it has not. *)
Theorem compose_marks_missing_fields (items : list context_item) :
  ((exists e, create_context_string (FList items) = Raise e)
   <-> exists it, it ∈ items /\ forall t, type_ it ≠ VStr t)
  /\ ((forall it, it ∈ items -> exists t, type_ it = VStr t) ->
      exists out,
        create_context_string (FList items) = Ret out
        /\ contains out "Retrieved relevant information:"
        /\ (forall it t, it ∈ items -> type_ it = VStr t ->
              contains out (nl +:+ pretty (rank it) +:+ ". [" +:+ upper t +:+ "] (Relevance: "
                              +:+ format_2f (relevance_score it) +:+ ")")
              /\ contains out ("   " +:+ content it))
        /\ (forall it, it ∈ items -> type_ it = VStr "sales" ->
              contains out
                ("   Product: " +:+ field_text (metadata it !! "product")
                   +:+ ", Revenue: $" +:+ field_text (metadata it !! "revenue")
                   +:+ ", Region: " +:+ field_text (metadata it !! "region")
                   +:+ ", Quarter: " +:+ field_text (metadata it !! "quarter")))
        /\ (forall it, it ∈ items -> type_ it = VStr "marketing" ->
              contains out
                ("   Campaign: " +:+ field_text (metadata it !! "campaign_name")
                   +:+ ", Channel: " +:+ field_text (metadata it !! "channel")
                   +:+ ", Budget: $" +:+ field_text (metadata it !! "budget")
                   +:+ ", Conversions: " +:+ field_text (metadata it !! "conversions")))
        /\ (forall it t key label, it ∈ items -> type_ it = VStr t ->
              (key, label) ∈ expected_fields t ->
              metadata it !! key = None ->
              contains out (label +:+ "None"))
        /\ (forall it t key label v, it ∈ items -> type_ it = VStr t ->
              (key, label) ∈ expected_fields t ->
              metadata it !! key = Some v ->
              contains out (label +:+ str v))).
Proof.
  split.
  { unfold create_context_string.
    rewrite <- (append_items_raises_iff items ["Retrieved relevant information:" +:+ nl]).
    destruct (append_items ["Retrieved relevant information:" +:+ nl] items) as [parts|e].
    - split; intros [e He]; discriminate.
    - split; intros _; eexists; reflexivity. }
  intros Htypes.
  destruct (append_items_ok items ["Retrieved relevant information:" +:+ nl] Htypes)
    as (added & Hrun & Hall).
  eexists. split; [unfold create_context_string; rewrite Hrun; reflexivity|].
  split.
  { apply contains_trans with ("Retrieved relevant information:" +:+ nl).
    - apply contains_join, list_elem_of_here.
    - exists "", nl. reflexivity. }
  split.
  { intros it t Hin Ht. destruct (Hall it Hin) as (parts & Hparts & Hsub).
    unfold item_parts in Hparts. rewrite Ht in Hparts. injection Hparts as <-.
    split; apply contains_join, list_elem_of_further, Hsub.
    + apply list_elem_of_here.
    + apply list_elem_of_further, list_elem_of_here. }
  split.
  { intros it Hin Ht. destruct (Hall it Hin) as (parts & Hparts & Hsub).
    destruct (item_parts_metadata_line it) as [Hline _].
    destruct (Hline Ht) as (heading & Hparts'). rewrite Hparts in Hparts'.
    injection Hparts' as ->.
    apply contains_join, list_elem_of_further, Hsub.
    do 2 apply list_elem_of_further. apply list_elem_of_here. }
  split.
  { intros it Hin Ht. destruct (Hall it Hin) as (parts & Hparts & Hsub).
    destruct (item_parts_metadata_line it) as [_ Hline].
    destruct (Hline Ht) as (heading & Hparts'). rewrite Hparts in Hparts'.
    injection Hparts' as ->.
    apply contains_join, list_elem_of_further, Hsub.
    do 2 apply list_elem_of_further. apply list_elem_of_here. }
  split.
  - intros it t key label Hin Ht Hfield Hnone.
    destruct (Hall it Hin) as (parts & Hparts & Hsub).
    destruct (item_parts_marker it t key label Ht Hfield Hnone)
      as (parts' & line & Hparts' & Hline & Hmark).
    rewrite Hparts in Hparts'. injection Hparts' as <-.
    apply contains_trans with line; [|exact Hmark].
    apply contains_join, list_elem_of_further, Hsub, Hline.
  - intros it t key label v Hin Ht Hfield Hsome.
    destruct (Hall it Hin) as (parts & Hparts & Hsub).
    destruct (item_parts_value it t key label v Ht Hfield Hsome)
      as (parts' & line & Hparts' & Hline & Hshown).
    rewrite Hparts in Hparts'. injection Hparts' as <-.
    apply contains_trans with line; [|exact Hshown].
    apply contains_join, list_elem_of_further, Hsub, Hline.
Qed.

(** C9.  The round trip of the scenario: one hit, document "Q3 revenue up
    12%", sales metadata, distance 0.09.  It is normalised into one entry
    of rank 1, score 0.91 and type sales, and composed into a string that
    contains the ranked line, the content line and the sales line. *)
Theorem widget_round_trip :
  exists it out,
    format_retrieval_results (Some (batch_of [widget_hit])) = Ret (FList [it])
    /\ rank it = 1
    /\ relevance_score it = decimal 91 2
    /\ type_ it = VStr "sales"
    /\ content it = "Q3 revenue up 12%"
    /\ create_context_string (FList [it]) = Ret out
    /\ contains out "1. [SALES] (Relevance: 0.91)"
    /\ contains out "   Q3 revenue up 12%"
    /\ contains out "Product: Widget A, Revenue: $500000, Region: NA, Quarter: Q3".
Proof.
  eexists. eexists.
  split; [rewrite format_batch; reflexivity|].
  split; [reflexivity|]. split; [vm_compute; reflexivity|].
  split; [reflexivity|]. split; [reflexivity|].
  split.
  { rewrite create_context_string_on_ascii by (vm_compute; reflexivity).
    vm_compute. reflexivity. }
  repeat split; apply containsb_sound; vm_compute; reflexivity.
Qed.

End Compose.

(** ** Routing a report type to a search *)
Section Router.
Context `{Unicode} `{Externals}.

Lemma initialize_chromadb_opens (tr : trace) :
  store_opens ->
  exists cl c line, initialize_chromadb tr = (Ret (cl, c), tr ++ [Printed line]).
Proof.
  intros (cl & c & Hclient & Hcoll). exists cl, c.
  unfold initialize_chromadb. run. rewrite Hclient.
  destruct Hcoll as [Hget | [[e Hget] Hcreate]]; rewrite Hget.
  - eexists. reflexivity.
  - run. rewrite Hcreate. eexists. reflexivity.
Qed.

(** The search calls in the trace of one retrieval, for each of the three
    filters the wrappers pass. *)
Lemma retrieve_relevant_context_searches (query : string) (n : Z)
    (filter_type : option string) (tr : trace) :
  store_opens ->
  exists c line,
    retrieve_relevant_context query n filter_type tr =
      (collection_query c
         (search_call query n
            match filter_type with
            | Some t => if decide (t = "") then None else Some {[ "type" := VStr t ]}
            | None => None
            end),
       tr ++ [Printed line]
          ++ [Queried
                (search_call query n
                   match filter_type with
                   | Some t => if decide (t = "") then None else Some {[ "type" := VStr t ]}
                   | None => None
                   end)]).
Proof.
  intros Hopen. destruct (initialize_chromadb_opens tr Hopen) as (cl & c & line & Hinit).
  exists c, line. unfold retrieve_relevant_context. run. rewrite Hinit.
  unfold query_vectordb, search_call. run.
  destruct filter_type as [t|]; [destruct (decide (t = ""))|]; simpl;
    rewrite <- ?app_assoc; now destruct (collection_query c _).
Qed.

(** Formatting and composing add nothing to the trace. *)
Lemma format_and_compose_trace (m : py query_result) (tr : trace) :
  ((results ← m;
    formatted ← lift (format_retrieval_results (Some results));
    lift (create_context_string formatted)) tr).2 = (m tr).2.
Proof.
  unfold mbind, py_bind, bind, lift.
  destruct (m tr) as [[results|e] tr']; [|reflexivity].
  destruct (format_retrieval_results (Some results)); reflexivity.
Qed.

(** C8.  With the store open, retrieving for the report type sales issues
    exactly one search call, filtered on type sales and capped at the
    requested count (5 when 5 is asked); marketing filters on type
    marketing, and combined passes no filter. *)
Theorem router_issues_one_search (query : string) (n_results : Z) (tr : trace) :
  store_opens ->
  searches (retrieve_context query "sales" n_results tr).2 =
    searches tr ++ [search_call query n_results (Some {[ "type" := VStr "sales" ]})]
  /\ searches (retrieve_context query "marketing" n_results tr).2 =
       searches tr ++ [search_call query n_results (Some {[ "type" := VStr "marketing" ]})]
  /\ searches (retrieve_context query "combined" n_results tr).2 =
       searches tr ++ [search_call query n_results None].
Proof.
  intros Hopen.
  unfold retrieve_context, retrieve_sales_data, retrieve_marketing_data,
    retrieve_combined_data. simpl.
  rewrite !format_and_compose_trace.
  destruct (retrieve_relevant_context_searches query n_results (Some "sales") tr Hopen)
    as (c1 & line1 & ->).
  destruct (retrieve_relevant_context_searches query n_results (Some "marketing") tr Hopen)
    as (c2 & line2 & ->).
  destruct (retrieve_relevant_context_searches query n_results None tr Hopen)
    as (c3 & line3 & ->).
  simpl. rewrite !searches_app. simpl.
  split; [reflexivity | split; reflexivity].
Qed.

(** What a retrieval returns: the store's answer to the one search,
    normalised and then composed. *)
Lemma retrieve_combined_data_outcome (query : string) (n : Z) (tr : trace) :
  store_opens ->
  exists c,
    (retrieve_combined_data query n tr).1 =
      (results ← collection_query c (search_call query n None);
       formatted ← format_retrieval_results (Some results);
       create_context_string formatted).
Proof.
  intros Hopen.
  destruct (retrieve_relevant_context_searches query n None tr Hopen) as (c & line & Hrun).
  exists c. unfold retrieve_combined_data.
  unfold mbind at 1 2, py_bind, bind, lift. rewrite Hrun.
  destruct (collection_query c (search_call query n None)) as [results|e]; [|reflexivity].
  unfold mbind, outcome_bind, obind.
  destruct (format_retrieval_results (Some results)); reflexivity.
Qed.

(** C10.  A report type that is neither "sales" nor "marketing" is not
    rejected: it performs the unfiltered retrieval.  With the store open
    exactly one search is issued, for the query and the cap and without a
    filter, and what the retrieval returns or raises is what the store's
    answer to that search gives once normalised and composed, so nothing
    is raised on account of the report type.  The router and the whole
    report are the same computations as for "combined". *)
Theorem unknown_report_type_is_combined (query report_type : string) (n_results : Z)
    (tr : trace) :
  report_type ≠ "sales" ->
  report_type ≠ "marketing" ->
  retrieve_context query report_type n_results = retrieve_combined_data query n_results
  /\ generate_report_with_autogen_multiagent query report_type n_results =
       generate_report_with_autogen_multiagent query "combined" n_results
  /\ (store_opens ->
      searches (retrieve_context query report_type n_results tr).2 =
        searches tr ++ [search_call query n_results None]
      /\ exists c,
           (retrieve_context query report_type n_results tr).1 =
             (results ← collection_query c (search_call query n_results None);
              formatted ← format_retrieval_results (Some results);
              create_context_string formatted)).
Proof.
  intros Hsales Hmarketing.
  assert (Hroute : retrieve_context query report_type n_results
                   = retrieve_combined_data query n_results).
  { unfold retrieve_context. now rewrite !decide_False. }
  split; [exact Hroute|].
  split; [unfold generate_report_with_autogen_multiagent; now rewrite Hroute|].
  intros Hopen. rewrite Hroute. split.
  - unfold retrieve_combined_data. rewrite format_and_compose_trace.
    destruct (retrieve_relevant_context_searches query n_results None tr Hopen)
      as (c & line & ->).
    simpl. rewrite !searches_app. simpl. reflexivity.
  - apply retrieve_combined_data_outcome, Hopen.
Qed.

End Router.

(** ** Concrete runs *)
Section AnsweringRun.
#[local] Existing Instance ascii_interpreter.
#[local] Existing Instance answering_world.

Lemma two_stage_pipeline_two_calls_run :
  completion (at_analyst []) create_data_analyst_agent
    (analysis_prompt "Top products" sentinel) = Ret "Answer of data_analyst"
  /\ generations (analyse_then_write "Top products" sentinel []).2 =
       [ (create_data_analyst_agent, analysis_prompt "Top products" sentinel);
         (create_report_writer_agent, report_prompt "Top products" "Answer of data_analyst") ]
  /\ (analyse_then_write "Top products" sentinel []).1 = Ret "Answer of report_writer".
Proof.
  assert (Hanalyst : completion (at_analyst []) create_data_analyst_agent
            (analysis_prompt "Top products" sentinel) = Ret "Answer of data_analyst")
    by reflexivity.
  split; [exact Hanalyst|].
  destruct (two_stage_pipeline_two_calls "Top products" sentinel "Answer of data_analyst" []
              Hanalyst) as (Hcalls & _ & Hreturned).
  split; [exact Hcalls | exact Hreturned].
Defined.

Lemma router_issues_one_search_run :
  store_opens
  /\ searches (retrieve_context "Top products" "sales" 5 []).2 =
       [ search_call "Top products" 5 (Some {[ "type" := VStr "sales" ]}) ].
Proof.
  assert (Hopen : store_opens).
  { exists tt, tt. split; [reflexivity | left; reflexivity]. }
  split; [exact Hopen|].
  destruct (router_issues_one_search "Top products" 5 [] Hopen) as (Hsales & _).
  exact Hsales.
Defined.

Lemma answering_store_opens : store_opens.
Proof. exists tt, tt. split; [reflexivity | left; reflexivity]. Defined.

Lemma unknown_report_type_is_combined_run :
  "slaes" ≠ "sales" /\ "slaes" ≠ "marketing" /\ store_opens
  /\ retrieve_context "Top products" "slaes" 8 = retrieve_combined_data "Top products" 8
  /\ searches (retrieve_context "Top products" "slaes" 8 []).2 =
       [ search_call "Top products" 8 None ]
  /\ exists context,
       (retrieve_context "Top products" "slaes" 8 []).1 = Ret context
       /\ contains context "1. [SALES] (Relevance: 0.91)".
Proof.
  assert (Hsales : "slaes" ≠ "sales") by discriminate.
  assert (Hmarketing : "slaes" ≠ "marketing") by discriminate.
  split; [exact Hsales|]. split; [exact Hmarketing|]. split; [exact answering_store_opens|].
  destruct (unknown_report_type_is_combined "Top products" "slaes" 8 [] Hsales Hmarketing)
    as (Hroute & _ & Hopen).
  destruct (Hopen answering_store_opens) as (Hsearch & c & Hvalue).
  split; [exact Hroute|]. split; [exact Hsearch|].
  rewrite Hvalue. eexists. split; [vm_compute; reflexivity|].
  apply containsb_sound. vm_compute. reflexivity.
Defined.

End AnsweringRun.

Section TimeoutRun.
#[local] Existing Instance ascii_interpreter.
#[local] Existing Instance timeout_world.

Lemma analyst_failure_stops_pipeline_run :
  completion (at_analyst []) create_data_analyst_agent
    (analysis_prompt "Top products" sentinel) = Raise (External "GenerationTimeout")
  /\ (analyse_then_write "Top products" sentinel []).1 = Raise (External "GenerationTimeout")
  /\ generations (analyse_then_write "Top products" sentinel []).2 =
       [ (create_data_analyst_agent, analysis_prompt "Top products" sentinel) ].
Proof.
  assert (Hanalyst : completion (at_analyst []) create_data_analyst_agent
            (analysis_prompt "Top products" sentinel) = Raise (External "GenerationTimeout"))
    by reflexivity.
  split; [exact Hanalyst|].
  destruct (analyst_failure_stops_pipeline "Top products" sentinel
              (External "GenerationTimeout") [] Hanalyst) as (Hraise & Hcalls).
  split; [now rewrite Hraise | exact Hcalls].
Defined.

End TimeoutRun.

Lemma normalize_keeps_order_run :
  [widget_hit] ≠ []
  /\ exists items,
       format_retrieval_results (Some (batch_of [widget_hit])) = Ret (FList items)
       /\ length items = 1%nat.
Proof.
  assert (Hne : [widget_hit] ≠ []) by discriminate.
  split; [exact Hne|].
  destruct (normalize_keeps_order [widget_hit] Hne) as (items & Hfmt & Hlen & _).
  exists items. split; [exact Hfmt | exact Hlen].
Defined.

Lemma relevance_is_one_minus_distance_run :
  [far_hit] !! 0%nat = Some far_hit
  /\ exists items it,
       format_retrieval_results (Some (batch_of [far_hit])) = Ret (FList items)
       /\ items !! 0%nat = Some it
       /\ relevance_score it = float_sub (float_of_int 1) (decimal 15 1)
       /\ float_ltb (relevance_score it) (float_of_int 0) = true.
Proof.
  assert (Hhit : [far_hit] !! 0%nat = Some far_hit) by reflexivity.
  split; [exact Hhit|].
  destruct (relevance_is_one_minus_distance [far_hit] 0 far_hit Hhit)
    as (items & it & Hfmt & Hit & Hscore & Hbelow).
  exists items, it. split; [exact Hfmt|]. split; [exact Hit|]. split; [exact Hscore|].
  apply Hbelow; vm_compute; reflexivity.
Defined.

Lemma compose_marks_missing_fields_run :
  (forall it, it ∈ [bare_item] -> exists t, type_ it = VStr t)
  /\ exists out,
       @create_context_string ascii_interpreter (FList [bare_item]) = Ret out
       /\ contains out "Product: None"
       /\ contains out "   Q3 revenue up 12%".
Proof.
  assert (Htypes : forall it, it ∈ [bare_item] -> exists t, type_ it = VStr t).
  { intros it Hin. apply list_elem_of_singleton in Hin as ->. now exists "sales". }
  split; [exact Htypes|].
  destruct (@compose_marks_missing_fields ascii_interpreter [bare_item])
    as (_ & Hcomposed).
  destruct (Hcomposed Htypes) as (out & Hout & _ & Hlines & _ & _ & Hmark & _).
  exists out. split; [exact Hout|]. split.
  - apply (Hmark bare_item "sales" "product" "Product: ").
    + apply list_elem_of_here.
    + reflexivity.
    + apply list_elem_of_here.
    + reflexivity.
  - apply (Hlines bare_item "sales"); [apply list_elem_of_here | reflexivity].
Defined.

(** ** Further properties: the report function as a whole *)
Section ReportAsAWhole.
Context `{Unicode} `{Externals}.

Lemma analysis_prompt_contains (query context : string) :
  contains (analysis_prompt query context) context
  /\ contains (analysis_prompt query context) query.
Proof.
  unfold analysis_prompt, text. split.
  - apply contains_join. do 4 apply list_elem_of_further. apply list_elem_of_here.
  - apply contains_trans with ("Query: " +:+ query).
    + apply contains_join. do 2 apply list_elem_of_further. apply list_elem_of_here.
    + apply contains_app_l, contains_refl.
Qed.

Lemma report_prompt_contains_query (query analyst_findings : string) :
  contains (report_prompt query analyst_findings) query.
Proof.
  unfold report_prompt, text.
  apply contains_trans with ("Original Query: " +:+ query).
  - apply contains_join. do 2 apply list_elem_of_further. apply list_elem_of_here.
  - apply contains_app_l, contains_refl.
Qed.

(** The trace of [analyse_then_write] when the analyst's call fails. *)
Lemma analyse_then_write_analyst_raise (query context : string) (e : exn) (tr : trace) :
  completion (at_analyst tr) create_data_analyst_agent (analysis_prompt query context)
    = Raise e ->
  analyse_then_write query context tr =
    (Raise e,
     at_analyst tr ++ [Generated create_data_analyst_agent (analysis_prompt query context)]).
Proof.
  intros Hanalyst. unfold analyse_then_write. run. fold (at_analyst tr).
  now rewrite (initiate_chat_raise create_user_proxy _ _ _ _ Hanalyst).
Qed.

Lemma analyse_then_write_searches (query context : string) (tr : trace) :
  searches (analyse_then_write query context tr).2 = searches tr.
Proof.
  destruct (completion (at_analyst tr) create_data_analyst_agent
              (analysis_prompt query context)) as [findings|e] eqn:Hanalyst.
  - rewrite (analyse_then_write_after_analyst _ _ _ _ Hanalyst).
    destruct (completion (at_writer query context tr) _ _); simpl;
      unfold at_writer, at_analyst; rewrite !searches_app; simpl;
      now rewrite !app_nil_r.
  - rewrite (analyse_then_write_analyst_raise _ _ _ _ Hanalyst). simpl.
    unfold at_analyst. rewrite !searches_app. simpl. now rewrite !app_nil_r.
Qed.

Lemma initialize_chromadb_generations (tr : trace) :
  generations (initialize_chromadb tr).2 = generations tr.
Proof.
  unfold initialize_chromadb. run.
  destruct (persistent_client CHROMA_DB_PATH false) as [cl|e]; [|reflexivity].
  destruct (get_collection cl COLLECTION_NAME) as [c|e]; simpl.
  - rewrite generations_app. simpl. now rewrite app_nil_r.
  - run. destruct (create_collection cl COLLECTION_NAME _) as [c|e']; simpl; [|reflexivity].
    rewrite generations_app. simpl. now rewrite app_nil_r.
Qed.

Lemma retrieve_relevant_context_generations (query : string) (n : Z)
    (filter_type : option string) (tr : trace) :
  generations (retrieve_relevant_context query n filter_type tr).2 = generations tr.
Proof.
  pose proof (initialize_chromadb_generations tr) as Hinit.
  unfold retrieve_relevant_context. unfold mbind at 1, py_bind, bind.
  destruct (initialize_chromadb tr) as [[[cl c]|e] tr1]; simpl in *; [|exact Hinit].
  unfold query_vectordb. run.
  destruct (collection_query c _); simpl; rewrite generations_app; simpl;
    now rewrite app_nil_r.
Qed.

Lemma retrieve_context_generations (query report_type : string) (n : Z) (tr : trace) :
  generations (retrieve_context query report_type n tr).2 = generations tr.
Proof.
  unfold retrieve_context, retrieve_sales_data, retrieve_marketing_data,
    retrieve_combined_data.
  repeat case_decide; rewrite format_and_compose_trace;
    apply retrieve_relevant_context_generations.
Qed.

(** How the report function splits into its retrieval and its two calls. *)
Lemma generate_report_unfold (query report_type : string) (n : Z) (tr : trace) :
  generate_report_with_autogen_multiagent query report_type n tr =
    match retrieve_context query report_type n (tr ++ [Printed start_line]) with
    | (Ret context, tr1) => analyse_then_write query context tr1
    | (Raise e, tr1) => (Raise e, tr1)
    end.
Proof. reflexivity. Qed.

(** X1.  When the retrieval step raises, for whatever reason, the report
    function raises the same exception, its trace is the retrieval's, and
    no generation call has been issued. *)
Theorem report_stops_when_retrieval_fails (query report_type : string) (n_results : Z)
    (e : exn) (tr : trace) :
  (retrieve_context query report_type n_results (tr ++ [Printed start_line])).1 = Raise e ->
  (generate_report_with_autogen_multiagent query report_type n_results tr).1 = Raise e
  /\ (generate_report_with_autogen_multiagent query report_type n_results tr).2 =
       (retrieve_context query report_type n_results (tr ++ [Printed start_line])).2
  /\ generations (generate_report_with_autogen_multiagent query report_type n_results tr).2
       = generations tr.
Proof.
  intros Hfail. rewrite generate_report_unfold.
  pose proof (retrieve_context_generations query report_type n_results
                (tr ++ [Printed start_line])) as Hgen.
  destruct (retrieve_context query report_type n_results (tr ++ [Printed start_line]))
    as [[context|e'] tr1]; simpl in *; [discriminate|].
  split; [exact Hfail|]. split; [reflexivity|].
  rewrite Hgen, generations_app. simpl. now rewrite app_nil_r.
Qed.

(** X2.  A successful run of the report function, from the end of the
    retrieval on: the console line of the analyst, the analyst's call, the
    console line of the writer, the writer's call and the closing line, in
    this order and nothing else; the writer's text is returned.  The
    analyst's prompt contains the retrieved context and the query, the
    writer's prompt contains the query. *)
Theorem report_runs_in_order (query report_type context findings report : string)
    (n_results : Z) (tr tr1 : trace) :
  retrieve_context query report_type n_results (tr ++ [Printed start_line])
    = (Ret context, tr1) ->
  completion (at_analyst tr1) create_data_analyst_agent (analysis_prompt query context)
    = Ret findings ->
  completion (at_writer query context tr1) create_report_writer_agent
    (report_prompt query findings) = Ret report ->
  generate_report_with_autogen_multiagent query report_type n_results tr =
    (Ret report,
     tr1 ++ [ Printed "[AutoGen] Agent 1 (Data Analyst) - Analyzing data...";
              Generated create_data_analyst_agent (analysis_prompt query context);
              Printed "[AutoGen] Agent 2 (Report Writer) - Creating report...";
              Generated create_report_writer_agent (report_prompt query findings);
              Printed ("[AutoGen] Multi-Agent Report Generation Complete!" +:+ nl) ])
  /\ contains (analysis_prompt query context) context
  /\ contains (analysis_prompt query context) query
  /\ contains (report_prompt query findings) query.
Proof.
  intros Hctx Hanalyst Hwriter.
  split; [|split; [apply analysis_prompt_contains|
           split; [apply analysis_prompt_contains | apply report_prompt_contains_query]]].
  rewrite generate_report_unfold, Hctx.
  rewrite (analyse_then_write_after_analyst _ _ _ _ Hanalyst), Hwriter.
  unfold at_writer, at_analyst. now rewrite <- !app_assoc.
Qed.

(** X3.  When the analyst answers and the writer's call fails, the
    pipeline raises the writer's exception after both calls have been
    issued, and the closing console line is not printed. *)
Theorem writer_failure_propagates (query context findings : string) (e : exn) (tr : trace) :
  completion (at_analyst tr) create_data_analyst_agent (analysis_prompt query context)
    = Ret findings ->
  completion (at_writer query context tr) create_report_writer_agent
    (report_prompt query findings) = Raise e ->
  analyse_then_write query context tr =
    (Raise e,
     tr ++ [ Printed "[AutoGen] Agent 1 (Data Analyst) - Analyzing data...";
             Generated create_data_analyst_agent (analysis_prompt query context);
             Printed "[AutoGen] Agent 2 (Report Writer) - Creating report...";
             Generated create_report_writer_agent (report_prompt query findings) ]).
Proof.
  intros Hanalyst Hwriter.
  rewrite (analyse_then_write_after_analyst _ _ _ _ Hanalyst), Hwriter.
  unfold at_writer, at_analyst. now rewrite <- !app_assoc.
Qed.

(** X4.  The entry point for a ready-made prompt issues exactly one
    generation call, to the analyst and with the caller's prompt unchanged;
    it searches nothing and prints nothing, and it returns the analyst's
    answer or raises the call's exception. *)
Theorem custom_report_is_one_analyst_call (prompt_with_context : string) (tr : trace) :
  generate_custom_report prompt_with_context tr =
    (completion tr create_data_analyst_agent prompt_with_context,
     tr ++ [Generated create_data_analyst_agent prompt_with_context]).
Proof.
  unfold generate_custom_report. run. unfold initiate_chat.
  destruct (completion tr create_data_analyst_agent prompt_with_context) as [reply|e];
    [|reflexivity].
  unfold last_message_any. simpl.
  rewrite insert_empty, map_to_list_singleton. reflexivity.
Qed.

End ReportAsAWhole.

(** ** Further properties: the report functions *)
Section ReportFunctions.
Context `{Unicode} `{Externals}.

Lemma retrieve_context_searches (query report_type : string) (n : Z) (tr : trace) :
  store_opens ->
  searches (retrieve_context query report_type n tr).2 =
    searches tr ++ [search_call query n (filter_for report_type)].
Proof.
  intros Hopen.
  unfold retrieve_context, filter_for, retrieve_sales_data, retrieve_marketing_data,
    retrieve_combined_data.
  repeat case_decide; rewrite format_and_compose_trace.
  - destruct (retrieve_relevant_context_searches query n (Some "sales") tr Hopen)
      as (c & line & ->). simpl. rewrite !searches_app. reflexivity.
  - destruct (retrieve_relevant_context_searches query n (Some "marketing") tr Hopen)
      as (c & line & ->). simpl. rewrite !searches_app. reflexivity.
  - destruct (retrieve_relevant_context_searches query n None tr Hopen)
      as (c & line & ->). simpl. rewrite !searches_app. reflexivity.
Qed.

(** The search calls of a whole report, whatever the generation service
    does afterwards. *)
Lemma generate_report_searches (query report_type : string) (n : Z) (tr : trace) :
  store_opens ->
  searches (generate_report_with_rag query report_type n tr).2 =
    searches tr ++ [search_call query n (filter_for report_type)].
Proof.
  intros Hopen. unfold generate_report_with_rag. rewrite generate_report_unfold.
  pose proof (retrieve_context_searches query report_type n
                (tr ++ [Printed start_line]) Hopen) as Hsearch.
  destruct (retrieve_context query report_type n (tr ++ [Printed start_line]))
    as [[context|e] tr1]; simpl in *.
  - rewrite analyse_then_write_searches, Hsearch, searches_app. simpl.
    now rewrite app_nil_r.
  - rewrite Hsearch, searches_app. simpl. now rewrite app_nil_r.
Qed.

(** The search calls of a report function that prints two lines and then
    asks for a report. *)
Lemma announced_report_searches (line1 line2 query report_type : string) (n : Z)
    (tr : trace) :
  store_opens ->
  searches ((print line1;; print line2;;
             report ← generate_report_with_rag query report_type n; mret report) tr).2 =
    searches tr ++ [search_call query n (filter_for report_type)].
Proof.
  intros Hopen.
  pose proof (generate_report_searches query report_type n
                ((tr ++ [Printed line1]) ++ [Printed line2]) Hopen) as Hsearch.
  run.
  destruct (generate_report_with_rag query report_type n
              ((tr ++ [Printed line1]) ++ [Printed line2])) as [[report|e] tr1];
    simpl in *; rewrite Hsearch, !searches_app; simpl; now rewrite !app_nil_r.
Qed.

Lemma sales_query_spliced (region quarter : option string) :
  sales_query region quarter =
    "Analyze sales performance" +:+ spliced "in " region "" +:+ spliced "for " quarter "".
Proof.
  unfold sales_query, append_if_given, spliced.
  destruct region as [region|]; [destruct (decide (region = ""))|];
    (destruct quarter as [quarter|]; [destruct (decide (quarter = ""))|]);
    cbn [app join]; rewrite ?append_assoc, ?append_empty_r; reflexivity.
Qed.

Lemma marketing_query_spliced (channel quarter : option string) :
  marketing_query channel quarter =
    "Analyze marketing campaign performance"
      +:+ spliced "for " channel " channel" +:+ spliced "in " quarter "".
Proof.
  unfold marketing_query, append_if_given, spliced.
  destruct channel as [channel|]; [destruct (decide (channel = ""))|];
    (destruct quarter as [quarter|]; [destruct (decide (quarter = ""))|]);
    cbn [app join]; rewrite ?append_assoc, ?append_empty_r; reflexivity.
Qed.

Lemma spliced_given (before part after : string) :
  part ≠ "" -> spliced before (Some part) after = " " +:+ before +:+ part +:+ after.
Proof. intros Hpart. unfold spliced. now rewrite decide_False. Qed.

(** X5.  With the store open, the sales report and the marketing report
    each issue exactly one search, capped at 8 results and filtered on
    their own record type, whatever their two optional arguments are.
    The search text is the bare text followed by the words of each
    argument that is given and not empty: "in" the region and "for" the
    quarter for sales, "for" the channel "channel" and "in" the quarter
    for marketing.  Spelled out: both arguments missing or empty leave the
    bare text, one alone adds its own words, both add theirs in that
    order. *)
Theorem filtered_reports_search_once (first second : string) (tr : trace) :
  store_opens ->
  (forall region quarter : option string,
     searches (generate_sales_performance_report region quarter tr).2 =
       searches tr
         ++ [search_call ("Analyze sales performance"
                            +:+ spliced "in " region "" +:+ spliced "for " quarter "") 8
               (Some {[ "type" := VStr "sales" ]})])
  /\ (forall channel quarter : option string,
        searches (generate_marketing_campaign_report channel quarter tr).2 =
          searches tr
            ++ [search_call ("Analyze marketing campaign performance"
                               +:+ spliced "for " channel " channel"
                               +:+ spliced "in " quarter "") 8
                  (Some {[ "type" := VStr "marketing" ]})])
  /\ (forall region quarter : option string,
        (region = None \/ region = Some "") -> (quarter = None \/ quarter = Some "") ->
        searches (generate_sales_performance_report region quarter tr).2 =
          searches tr
            ++ [search_call "Analyze sales performance" 8
                  (Some {[ "type" := VStr "sales" ]})]
        /\ searches (generate_marketing_campaign_report region quarter tr).2 =
             searches tr
               ++ [search_call "Analyze marketing campaign performance" 8
                     (Some {[ "type" := VStr "marketing" ]})])
  /\ (first ≠ "" -> second ≠ "" ->
      forall absent : option string, (absent = None \/ absent = Some "") ->
      searches (generate_sales_performance_report (Some first) (Some second) tr).2 =
        searches tr
          ++ [search_call ("Analyze sales performance in " +:+ first +:+ " for " +:+ second) 8
                (Some {[ "type" := VStr "sales" ]})]
      /\ searches (generate_sales_performance_report (Some first) absent tr).2 =
           searches tr
             ++ [search_call ("Analyze sales performance in " +:+ first) 8
                   (Some {[ "type" := VStr "sales" ]})]
      /\ searches (generate_sales_performance_report absent (Some second) tr).2 =
           searches tr
             ++ [search_call ("Analyze sales performance for " +:+ second) 8
                   (Some {[ "type" := VStr "sales" ]})]
      /\ searches (generate_marketing_campaign_report (Some first) (Some second) tr).2 =
           searches tr
             ++ [search_call ("Analyze marketing campaign performance for " +:+ first
                                +:+ " channel in " +:+ second) 8
                   (Some {[ "type" := VStr "marketing" ]})]
      /\ searches (generate_marketing_campaign_report (Some first) absent tr).2 =
           searches tr
             ++ [search_call ("Analyze marketing campaign performance for " +:+ first
                                +:+ " channel") 8
                   (Some {[ "type" := VStr "marketing" ]})]
      /\ searches (generate_marketing_campaign_report absent (Some second) tr).2 =
           searches tr
             ++ [search_call ("Analyze marketing campaign performance in " +:+ second) 8
                   (Some {[ "type" := VStr "marketing" ]})]).
Proof.
  intros Hopen.
  assert (Hsales : forall region quarter : option string,
            searches (generate_sales_performance_report region quarter tr).2 =
              searches tr
                ++ [search_call ("Analyze sales performance"
                                   +:+ spliced "in " region "" +:+ spliced "for " quarter "") 8
                      (Some {[ "type" := VStr "sales" ]})]).
  { intros region quarter. unfold generate_sales_performance_report.
    rewrite announced_report_searches by exact Hopen.
    now rewrite sales_query_spliced. }
  assert (Hmarketing : forall channel quarter : option string,
            searches (generate_marketing_campaign_report channel quarter tr).2 =
              searches tr
                ++ [search_call ("Analyze marketing campaign performance"
                                   +:+ spliced "for " channel " channel"
                                   +:+ spliced "in " quarter "") 8
                      (Some {[ "type" := VStr "marketing" ]})]).
  { intros channel quarter. unfold generate_marketing_campaign_report.
    rewrite announced_report_searches by exact Hopen.
    now rewrite marketing_query_spliced. }
  split; [exact Hsales|]. split; [exact Hmarketing|]. split.
  - intros region quarter [-> | ->] [-> | ->]; rewrite Hsales, Hmarketing;
      split; reflexivity.
  - intros Hfirst Hsecond absent Habsent.
    rewrite !Hsales, !Hmarketing.
    rewrite !(spliced_given _ first) by exact Hfirst.
    rewrite !(spliced_given _ second) by exact Hsecond.
    destruct Habsent as [-> | ->]; unfold spliced; cbn [decide];
      rewrite ?append_assoc, ?append_empty_r; repeat split.
Qed.

(** X6.  With the store open, the quarterly summary issues exactly one
    unfiltered search capped at 10 results, and the product, regional and
    custom reports one unfiltered search capped at 8; the custom report
    searches with the caller's text unchanged. *)
Theorem combined_reports_search_once (subject : string) (tr : trace) :
  store_opens ->
  searches (generate_quarterly_summary_report subject tr).2 =
    searches tr
      ++ [search_call
            ("Provide a comprehensive summary of sales and marketing performance for "
               +:+ subject) 10 None]
  /\ searches (generate_product_analysis_report subject tr).2 =
       searches tr
         ++ [search_call ("Analyze the performance and marketing of " +:+ subject) 8 None]
  /\ searches (generate_regional_analysis_report subject tr).2 =
       searches tr
         ++ [search_call ("Analyze sales and marketing performance in " +:+ subject) 8 None]
  /\ searches (generate_custom_analysis_report subject tr).2 =
       searches tr ++ [search_call subject 8 None].
Proof.
  intros Hopen.
  unfold generate_quarterly_summary_report, generate_product_analysis_report,
    generate_regional_analysis_report, generate_custom_analysis_report.
  rewrite !announced_report_searches by exact Hopen.
  repeat split.
Qed.

End ReportFunctions.

(** ** Further properties: normalising and composing *)
Section NormalizeCompose.
Context `{Unicode}.

Lemma zip3_length {A B C} (a : list A) (b : list B) (c : list C) :
  length (zip3 a b c) = (length a `min` (length b `min` length c))%nat.
Proof.
  revert b c. induction a as [|x a IH]; intros [|y b] [|z c]; simpl;
    try reflexivity; try lia.
  now rewrite IH.
Qed.

Lemma zip3_lookup {A B C} (a : list A) (b : list B) (c : list C) (i : nat)
    (x : A) (y : B) (z : C) :
  zip3 a b c !! i = Some (x, y, z) <->
  a !! i = Some x /\ b !! i = Some y /\ c !! i = Some z.
Proof.
  revert b c i. induction a as [|x' a IH]; intros [|y' b] [|z' c] i; simpl;
    try (split; [intros Hl; inversion Hl | intros (Ha & Hb & Hc); now destruct i]).
  destruct i as [|i]; simpl.
  - split; [intros [= -> -> ->]; auto | intros ([= ->] & [= ->] & [= ->]); reflexivity].
  - apply IH.
Qed.

(** X7.  The normaliser reads only the first batch of each list and pairs
    the three batches by position, stopping with the shortest: the result
    has as many entries as the shortest batch, entry [i] is built from the
    [i]-th document, metadata and distance, and further batches and the
    surplus of longer batches are dropped without an error. *)
Theorem normalize_truncates_to_shortest
    (docs : list string) (more_docs : list (list string))
    (metas : list dict) (more_metas : list (list dict))
    (dists : list float) (more_dists : list (list float)) :
  exists items,
    format_retrieval_results
      (Some {| documents := Some (docs :: more_docs);
               metadatas := Some (metas :: more_metas);
               distances := Some (dists :: more_dists) |}) = Ret (FList items)
    /\ length items = (length docs `min` (length metas `min` length dists))%nat
    /\ forall i it, items !! i = Some it ->
         rank it = Z.of_nat i + 1
         /\ docs !! i = Some (content it)
         /\ metas !! i = Some (metadata it)
         /\ exists distance,
              dists !! i = Some distance
              /\ relevance_score it = float_sub (float_of_int 1) distance.
Proof.
  eexists. split; [reflexivity|]. split.
  - rewrite length_imap. apply zip3_length.
  - intros i it Hit. rewrite list_lookup_imap in Hit.
    destruct (zip3 docs metas dists !! i) as [[[doc meta] dist]|] eqn:Hzip;
      [|discriminate].
    apply zip3_lookup in Hzip as (Hdoc & Hmeta & Hdist).
    simpl in Hit. injection Hit as <-. simpl.
    split; [reflexivity|]. split; [exact Hdoc|]. split; [exact Hmeta|].
    now exists dist.
Qed.

(** X8.  A hit whose metadata has no type is given the type "unknown";
    an entry of that type, and of any string type other than "sales" and
    "marketing", is composed into its ranked line and its content line
    only, with no metadata line. *)
Theorem other_types_get_no_metadata_line (hits : list raw_hit) (i : nat) (h : raw_hit) :
  hits !! i = Some h ->
  hit_metadata h !! "type" = None ->
  exists items it,
    format_retrieval_results (Some (batch_of hits)) = Ret (FList items)
    /\ items !! i = Some it
    /\ type_ it = VStr "unknown"
    /\ item_parts it =
         Ret [ nl +:+ pretty (Z.of_nat i + 1) +:+ ". [UNKNOWN] (Relevance: "
                 +:+ format_2f (relevance_score it) +:+ ")";
               "   " +:+ hit_document h ]
    /\ forall (other : context_item) (t : string),
         type_ other = VStr t -> t ≠ "sales" -> t ≠ "marketing" ->
         item_parts other =
           Ret [ nl +:+ pretty (rank other) +:+ ". [" +:+ upper t +:+ "] (Relevance: "
                   +:+ format_2f (relevance_score other) +:+ ")";
                 "   " +:+ content other ].
Proof.
  intros Hi Htype.
  destruct (format_batch_lookup hits i h Hi) as (items & Hfmt & _ & Hit).
  exists items. eexists. split; [exact Hfmt|]. split; [exact Hit|].
  assert (Hother : forall (other : context_item) (t : string),
             type_ other = VStr t -> t ≠ "sales" -> t ≠ "marketing" ->
             item_parts other =
               Ret [ nl +:+ pretty (rank other) +:+ ". [" +:+ upper t +:+ "] (Relevance: "
                       +:+ format_2f (relevance_score other) +:+ ")";
                     "   " +:+ content other ]).
  { intros other t Ht Hsales Hmarketing. unfold item_parts. rewrite Ht.
    rewrite !decide_False by congruence. reflexivity. }
  split; [cbn [make_item type_]; now rewrite Htype|].
  split; [|exact Hother].
  rewrite (Hother _ "unknown");
    [rewrite (upper_isascii "unknown" eq_refl); reflexivity| |discriminate|discriminate].
  cbn [make_item type_]. now rewrite Htype.
Qed.

Lemma append_items_raise (items : list context_item) (context_parts : list string) :
  (exists it, it ∈ items /\ forall t, type_ it ≠ VStr t) ->
  append_items context_parts items = Raise (AttributeError "upper").
Proof.
  revert context_parts.
  induction items as [|item rest IH]; intros context_parts (it & Hin & Hbad).
  - inversion Hin.
  - cbn [append_items]. unfold item_parts at 1.
    destruct (type_ item) as [t|z|b] eqn:Htype; try reflexivity.
    apply elem_of_cons in Hin as [->|Hin]; [now destruct (Hbad t)|].
    apply IH. now exists it.
Qed.

(** X9.  The composer raises exactly when some entry has a type that is
    not a string, and what it raises is then the [AttributeError] of
    [.upper()]; a hit whose metadata carries a number as its type makes
    normalising and composing fail in this way. *)
Theorem compose_fails_only_on_non_string_type (items : list context_item) :
  ((exists it, it ∈ items /\ forall t, type_ it ≠ VStr t) <->
   create_context_string (FList items) = Raise (AttributeError "upper"))
  /\ (forall e, create_context_string (FList items) = Raise e -> e = AttributeError "upper")
  /\ format_retrieval_results (Some (batch_of [numbered_hit])) ≫= create_context_string
       = Raise (AttributeError "upper").
Proof.
  assert (Hdec : (exists it, it ∈ items /\ forall t, type_ it ≠ VStr t)
                 \/ (forall it, it ∈ items -> exists t, type_ it = VStr t)).
  { induction items as [|item rest IH].
    - right. intros it Hin. inversion Hin.
    - destruct (type_ item) as [t|z|b] eqn:Htype.
      + destruct IH as [(it & Hin & Hbad)|Hall].
        * left. exists it. split; [now apply list_elem_of_further | exact Hbad].
        * right. intros it Hin. apply elem_of_cons in Hin as [->|Hin];
            [now exists t | now apply Hall].
      + left. exists item. split; [apply list_elem_of_here | intros t; congruence].
      + left. exists item. split; [apply list_elem_of_here | intros t; congruence]. }
  assert (Hraise : (exists it, it ∈ items /\ forall t, type_ it ≠ VStr t) ->
                   create_context_string (FList items) = Raise (AttributeError "upper")).
  { intros Hbad. unfold create_context_string. now rewrite append_items_raise. }
  assert (Hok : (forall it, it ∈ items -> exists t, type_ it = VStr t) ->
                exists out, create_context_string (FList items) = Ret out).
  { intros Hall.
    destruct (append_items_ok items ["Retrieved relevant information:" +:+ nl] Hall)
      as (added & Hrun & _).
    eexists. unfold create_context_string. rewrite Hrun. reflexivity. }
  split; [split; [exact Hraise|]|split].
  - intros Hfail. destruct Hdec as [Hbad|Hall]; [exact Hbad|].
    destruct (Hok Hall) as [out Hout]. congruence.
  - intros e Hfail. destruct Hdec as [Hbad|Hall].
    + rewrite (Hraise Hbad) in Hfail. congruence.
    + destruct (Hok Hall) as [out Hout]. congruence.
  - reflexivity.
Qed.

Lemma join_app (sep : string) (l l' : list string) :
  l ≠ [] -> l' ≠ [] -> join sep (l ++ l') = join sep l +:+ sep +:+ join sep l'.
Proof.
  intros Hl Hl'. induction l as [|x l IH]; [contradiction|].
  destruct l as [|y l].
  - destruct l' as [|z l']; [contradiction|]. reflexivity.
  - change (join sep ((x :: y :: l) ++ l')) with (x +:+ sep +:+ join sep ((y :: l) ++ l')).
    rewrite IH by discriminate.
    change (join sep (x :: y :: l)) with (x +:+ sep +:+ join sep (y :: l)).
    now rewrite !append_assoc.
Qed.

Lemma append_items_snoc (items : list context_item) (it : context_item)
    (context_parts done_parts parts : list string) :
  append_items context_parts items = Ret done_parts ->
  item_parts it = Ret parts ->
  append_items context_parts (items ++ [it]) = Ret (done_parts ++ parts).
Proof.
  revert context_parts. induction items as [|item rest IH]; intros context_parts Hrun Hparts.
  - injection Hrun as <-. cbn [app append_items]. now rewrite Hparts.
  - cbn [app append_items] in *.
    destruct (item_parts item) as [ps|e]; [|discriminate].
    now apply IH.
Qed.

Lemma append_items_grows (items : list context_item) (context_parts done_parts : list string) :
  append_items context_parts items = Ret done_parts ->
  exists added, done_parts = context_parts ++ added.
Proof.
  revert context_parts. induction items as [|item rest IH]; intros context_parts Hrun.
  - injection Hrun as <-. exists []. now rewrite app_nil_r.
  - cbn [append_items] in Hrun.
    destruct (item_parts item) as [ps|e]; [|discriminate].
    destruct (IH _ Hrun) as [added ->]. exists (ps ++ added). now rewrite app_assoc.
Qed.

Lemma item_parts_not_nil (it : context_item) (parts : list string) :
  item_parts it = Ret parts -> parts ≠ [].
Proof.
  unfold item_parts. destruct (type_ it); [|discriminate..].
  intros [= <-]. discriminate.
Qed.

(** X10.  Composing is incremental: the text composed for a list of
    entries followed by one more entry is the text composed for the list,
    a newline, and the lines of the new entry joined by newlines.  The
    text of the earlier entries is never changed by a later one. *)
Theorem compose_appends_entry (items : list context_item) (it : context_item)
    (out : string) (parts : list string) :
  create_context_string (FList items) = Ret out ->
  item_parts it = Ret parts ->
  create_context_string (FList (items ++ [it])) = Ret (out +:+ nl +:+ join nl parts).
Proof.
  intros Hout Hparts. unfold create_context_string in *.
  destruct (append_items ["Retrieved relevant information:" +:+ nl] items)
    as [done_parts|e] eqn:Hrun; [|discriminate].
  injection Hout as <-.
  rewrite (append_items_snoc _ _ _ _ _ Hrun Hparts).
  destruct (append_items_grows _ _ _ Hrun) as [added ->].
  change (Ret (join nl ((["Retrieved relevant information:" +:+ nl] ++ added) ++ parts))
          = Ret (join nl (["Retrieved relevant information:" +:+ nl] ++ added)
                 +:+ nl +:+ join nl parts)).
  rewrite join_app; [reflexivity|discriminate|].
  exact (item_parts_not_nil it parts Hparts).
Qed.

End NormalizeCompose.

(** ** Further properties: opening the store and retrieving *)
Section Retrieval.
Context `{Unicode} `{Externals}.

(** X11.  [initialize_chromadb] returns a collection exactly when the
    client can be created and the collection is found or, failing that,
    created: a failing lookup is never raised by itself.  On success one
    line is printed; on failure nothing is printed and the exception is
    the client's or the creation's. *)
Theorem initialize_chromadb_falls_back_to_create (tr : trace) :
  match (initialize_chromadb tr).1 with
  | Ret _ => store_opens /\ exists line, (initialize_chromadb tr).2 = tr ++ [Printed line]
  | Raise e =>
      ~ store_opens
      /\ (initialize_chromadb tr).2 = tr
      /\ (persistent_client CHROMA_DB_PATH false = Raise e
          \/ exists cl,
               create_collection cl COLLECTION_NAME
                 {[ "description" := VStr "Sales and marketing data for report generation" ]}
               = Raise e)
  end.
Proof.
  unfold initialize_chromadb, store_opens. run.
  destruct (persistent_client CHROMA_DB_PATH false) as [cl|e] eqn:Hclient; simpl.
  - destruct (get_collection cl COLLECTION_NAME) as [c|e] eqn:Hget; simpl.
    + split; [|now eexists]. exists cl, c. split; [reflexivity | now left].
    + run.
      destruct (create_collection cl COLLECTION_NAME _) as [c|e'] eqn:Hcreate; simpl.
      * split; [|now eexists]. exists cl, c. split; [reflexivity|]. right.
        split; [now exists e | exact Hcreate].
      * split; [|split; [reflexivity | right; now exists cl]].
        intros (cl' & c & [= <-] & [Hfound | [_ Hcreated]]); congruence.
  - split; [|split; [reflexivity | now left]].
    intros (cl & c & Hcl & _). discriminate.
Qed.

Lemma initialize_chromadb_decides (tr : trace) :
  store_opens \/ (~ store_opens /\ exists e, initialize_chromadb tr = (Raise e, tr)).
Proof.
  unfold initialize_chromadb, store_opens. run.
  destruct (persistent_client CHROMA_DB_PATH false) as [cl|e] eqn:Hclient; simpl.
  - destruct (get_collection cl COLLECTION_NAME) as [c|e] eqn:Hget; simpl.
    + left. exists cl, c. split; [reflexivity | now left].
    + run.
      destruct (create_collection cl COLLECTION_NAME _) as [c|e'] eqn:Hcreate; simpl.
      * left. exists cl, c. split; [reflexivity|]. right.
        split; [now exists e | exact Hcreate].
      * right. split; [|now exists e'].
        intros (cl' & c & [= <-] & [Hfound | [_ Hcreated]]); congruence.
  - right. split; [|now exists e].
    intros (cl & c & Hcl & _). discriminate.
Qed.

(** X12.  A retrieval never searches twice: with the store open it issues
    exactly one search, and when the store cannot be opened it raises
    without any search. *)
Theorem retrieval_searches_at_most_once (query report_type : string) (n_results : Z)
    (tr : trace) :
  (store_opens
   /\ searches (retrieve_context query report_type n_results tr).2 =
        searches tr ++ [search_call query n_results (filter_for report_type)])
  \/ (~ store_opens
      /\ (exists e, (retrieve_context query report_type n_results tr).1 = Raise e)
      /\ (retrieve_context query report_type n_results tr).2 = tr).
Proof.
  destruct (initialize_chromadb_decides tr) as [Hopen|(Hclosed & e & Hinit)].
  - left. split; [exact Hopen|].
    unfold retrieve_context, filter_for, retrieve_sales_data, retrieve_marketing_data,
      retrieve_combined_data.
    repeat case_decide; rewrite format_and_compose_trace;
      match goal with
      | |- context [retrieve_relevant_context ?q ?n ?f] =>
          destruct (retrieve_relevant_context_searches q n f tr Hopen) as (c & line & ->)
      end;
      simpl; rewrite !searches_app; reflexivity.
  - right. split; [exact Hclosed|].
    unfold retrieve_context, retrieve_sales_data, retrieve_marketing_data,
      retrieve_combined_data, retrieve_relevant_context.
    repeat case_decide; run; rewrite Hinit; (split; [now exists e | reflexivity]).
Qed.

(** The value of a retrieval wrapper once the search has answered. *)
Lemma format_and_compose_value (m : py query_result) (results : query_result)
    (tr tr' : trace) :
  m tr = (Ret results, tr') ->
  ((results ← m;
    formatted ← lift (format_retrieval_results (Some results));
    lift (create_context_string formatted)) tr).1
  = format_retrieval_results (Some results) ≫= create_context_string.
Proof.
  intros Hm. unfold mbind at 1 2, py_bind, bind, lift. rewrite Hm.
  unfold mbind, outcome_bind, obind.
  destruct (format_retrieval_results (Some results)); reflexivity.
Qed.

Lemma retrieve_relevant_context_answer (query : string) (n : Z)
    (filter_type : option string) (results : query_result) (tr : trace) :
  store_opens ->
  (forall c p, collection_query c p = Ret results) ->
  exists tr', retrieve_relevant_context query n filter_type tr = (Ret results, tr').
Proof.
  intros Hopen Hanswer.
  destruct (retrieve_relevant_context_searches query n filter_type tr Hopen)
    as (c & line & ->).
  rewrite Hanswer. now eexists.
Qed.

(** X13.  With the store open and a search that answers with a batch of
    hits whose types are strings or missing, every report type gets a
    context that contains the document of every hit, and so does the
    analyst's prompt built from it. *)
Theorem retrieved_documents_reach_the_prompt (hits : list raw_hit)
    (query report_type : string) (n_results : Z) (tr : trace) :
  store_opens ->
  (forall c p, collection_query c p = Ret (batch_of hits)) ->
  (forall h, h ∈ hits ->
     hit_metadata h !! "type" = None \/ exists t, hit_metadata h !! "type" = Some (VStr t)) ->
  exists context,
    (retrieve_context query report_type n_results tr).1 = Ret context
    /\ forall h, h ∈ hits ->
         contains context ("   " +:+ hit_document h)
         /\ contains (analysis_prompt query context) (hit_document h).
Proof.
  intros Hopen Hanswer Htypes.
  set (items := imap (fun i h =>
                        make_item i (hit_document h, hit_metadata h, hit_distance h)) hits).
  assert (Hstr : forall it, it ∈ items -> exists t, type_ it = VStr t).
  { intros it Hin. apply list_elem_of_lookup in Hin as [i Hi].
    unfold items in Hi. rewrite list_lookup_imap in Hi.
    destruct (hits !! i) as [h|] eqn:Hh; [|discriminate].
    injection Hi as <-. cbn [make_item type_].
    destruct (Htypes h) as [-> | [t ->]]; [now apply list_elem_of_lookup_2 with i|..];
      now eexists. }
  destruct (append_items_ok items ["Retrieved relevant information:" +:+ nl] Hstr)
    as (added & Hrun & Hall).
  exists (join nl (["Retrieved relevant information:" +:+ nl] ++ added)).
  assert (Hvalue : format_retrieval_results (Some (batch_of hits)) ≫= create_context_string
                   = Ret (join nl (["Retrieved relevant information:" +:+ nl] ++ added))).
  { rewrite format_batch. fold items.
    change (create_context_string (FList items) = Ret
              (join nl (["Retrieved relevant information:" +:+ nl] ++ added))).
    unfold create_context_string. now rewrite Hrun. }
  split.
  - unfold retrieve_context, retrieve_sales_data, retrieve_marketing_data,
      retrieve_combined_data.
    repeat case_decide;
      match goal with
      | |- context [retrieve_relevant_context ?q ?n ?f] =>
          destruct (retrieve_relevant_context_answer q n f (batch_of hits) tr Hopen Hanswer)
            as [tr' Hret]
      end;
      rewrite (format_and_compose_value _ _ _ _ Hret); exact Hvalue.
  - intros h Hin.
    assert (Hline : contains (join nl (["Retrieved relevant information:" +:+ nl] ++ added))
                      ("   " +:+ hit_document h)).
    { apply list_elem_of_lookup in Hin as [i Hi].
      assert (Hitem : make_item i (hit_document h, hit_metadata h, hit_distance h) ∈ items).
      { apply list_elem_of_lookup_2 with i. unfold items.
        now rewrite list_lookup_imap, Hi. }
      destruct (Hall _ Hitem) as (parts & Hparts & Hsub).
      destruct (Hstr _ Hitem) as [t Ht].
      unfold item_parts in Hparts. rewrite Ht in Hparts. injection Hparts as <-.
      apply contains_join. apply elem_of_app. right. apply Hsub.
      apply list_elem_of_further, list_elem_of_here. }
    split; [exact Hline|].
    apply contains_trans with (join nl (["Retrieved relevant information:" +:+ nl] ++ added));
      [|apply contains_trans with ("   " +:+ hit_document h);
         [exact Hline | apply contains_app_l, contains_refl]].
    unfold analysis_prompt, text. apply contains_join.
    do 4 apply list_elem_of_further. apply list_elem_of_here.
Qed.

End Retrieval.

(** ** Further properties: loading and clearing the store *)

(** Proves that a literal key is in a literal list of keys. *)
Ltac key_in_list :=
  unfold sale_keys, campaign_keys;
  repeat first [apply list_elem_of_here | apply list_elem_of_further].

Section Loading.

Lemma field_present (record : dict) (key : string) (v : value) :
  record !! key = Some v -> field record key = Ret v.
Proof. intros Hv. unfold field. now rewrite Hv. Qed.

Lemma sale_entry_ok (sale : dict) :
  has_keys sale_keys sale ->
  exists doc id product revenue region quarter md,
    sale !! "description" = Some doc /\ sale !! "id" = Some id
    /\ sale !! "product" = Some product /\ sale !! "revenue" = Some revenue
    /\ sale !! "region" = Some region /\ sale !! "quarter" = Some quarter
    /\ sale_entry sale = Ret (doc, md, "sales_" +:+ str id)
    /\ md !! "type" = Some (VStr "sales")
    /\ md !! "product" = Some product /\ md !! "revenue" = Some (VStr (str revenue))
    /\ md !! "region" = Some region /\ md !! "quarter" = Some quarter.
Proof.
  intros Hkeys.
  destruct (Hkeys "description") as [doc Hdoc]; [key_in_list|].
  destruct (Hkeys "id") as [id Hid]; [key_in_list|].
  destruct (Hkeys "product") as [product Hproduct]; [key_in_list|].
  destruct (Hkeys "category") as [category Hcategory]; [key_in_list|].
  destruct (Hkeys "revenue") as [revenue Hrevenue]; [key_in_list|].
  destruct (Hkeys "units_sold") as [units Hunits]; [key_in_list|].
  destruct (Hkeys "region") as [region Hregion]; [key_in_list|].
  destruct (Hkeys "quarter") as [quarter Hquarter]; [key_in_list|].
  destruct (Hkeys "customer_segment") as [segment Hsegment]; [key_in_list|].
  destruct (Hkeys "sales_rep") as [rep Hrep]; [key_in_list|].
  exists doc, id, product, revenue, region, quarter. eexists.
  repeat (split; [eassumption|]).
  split.
  - unfold sale_entry.
    rewrite (field_present _ _ _ Hdoc), (field_present _ _ _ Hid),
      (field_present _ _ _ Hproduct), (field_present _ _ _ Hcategory),
      (field_present _ _ _ Hrevenue), (field_present _ _ _ Hunits),
      (field_present _ _ _ Hregion), (field_present _ _ _ Hquarter),
      (field_present _ _ _ Hsegment), (field_present _ _ _ Hrep).
    reflexivity.
  - repeat split; now simplify_map_eq.
Qed.

Lemma campaign_entry_ok (campaign : dict) :
  has_keys campaign_keys campaign ->
  exists doc id name channel budget conversions md,
    campaign !! "description" = Some doc /\ campaign !! "id" = Some id
    /\ campaign !! "campaign_name" = Some name /\ campaign !! "channel" = Some channel
    /\ campaign !! "budget" = Some budget /\ campaign !! "conversions" = Some conversions
    /\ campaign_entry campaign = Ret (doc, md, "marketing_" +:+ str id)
    /\ md !! "type" = Some (VStr "marketing")
    /\ md !! "campaign_name" = Some name /\ md !! "channel" = Some channel
    /\ md !! "budget" = Some (VStr (str budget))
    /\ md !! "conversions" = Some (VStr (str conversions)).
Proof.
  intros Hkeys.
  destruct (Hkeys "description") as [doc Hdoc]; [key_in_list|].
  destruct (Hkeys "id") as [id Hid]; [key_in_list|].
  destruct (Hkeys "campaign_name") as [name Hname]; [key_in_list|].
  destruct (Hkeys "channel") as [channel Hchannel]; [key_in_list|].
  destruct (Hkeys "budget") as [budget Hbudget]; [key_in_list|].
  destruct (Hkeys "impressions") as [impressions Himpressions]; [key_in_list|].
  destruct (Hkeys "clicks") as [clicks Hclicks]; [key_in_list|].
  destruct (Hkeys "conversions") as [conversions Hconversions]; [key_in_list|].
  destruct (Hkeys "quarter") as [quarter Hquarter]; [key_in_list|].
  destruct (Hkeys "target_segment") as [segment Hsegment]; [key_in_list|].
  exists doc, id, name, channel, budget, conversions. eexists.
  repeat (split; [eassumption|]).
  split.
  - unfold campaign_entry.
    rewrite (field_present _ _ _ Hdoc), (field_present _ _ _ Hid),
      (field_present _ _ _ Hname), (field_present _ _ _ Hchannel),
      (field_present _ _ _ Hbudget), (field_present _ _ _ Himpressions),
      (field_present _ _ _ Hclicks), (field_present _ _ _ Hconversions),
      (field_present _ _ _ Hquarter), (field_present _ _ _ Hsegment).
    reflexivity.
  - repeat split; now simplify_map_eq.
Qed.

(** Reads one more key of [record]: either it is there, or the entry
    raises the [KeyError] of that key. *)
Ltac read_key record key :=
  let v := fresh "v" in
  let Hk := fresh "Hk" in
  destruct (record !! key) as [v|] eqn:Hk;
  [|right; exists key; split; [key_in_list|];
    unfold sale_entry, campaign_entry, field;
    repeat match goal with Hl : record !! _ = _ |- _ => rewrite Hl end;
    reflexivity].

Lemma sale_entry_total (sale : dict) :
  has_keys sale_keys sale
  \/ exists key, key ∈ sale_keys /\ sale_entry sale = Raise (KeyError key).
Proof.
  read_key sale "description". read_key sale "id". read_key sale "product".
  read_key sale "category". read_key sale "revenue". read_key sale "units_sold".
  read_key sale "region". read_key sale "quarter". read_key sale "customer_segment".
  read_key sale "sales_rep".
  left. intros key Hin. unfold sale_keys in Hin.
  repeat (apply elem_of_cons in Hin as [->|Hin]; [eauto|]). inversion Hin.
Qed.

Lemma campaign_entry_total (campaign : dict) :
  has_keys campaign_keys campaign
  \/ exists key, key ∈ campaign_keys /\ campaign_entry campaign = Raise (KeyError key).
Proof.
  read_key campaign "description". read_key campaign "id".
  read_key campaign "campaign_name". read_key campaign "channel".
  read_key campaign "budget". read_key campaign "impressions".
  read_key campaign "clicks". read_key campaign "conversions".
  read_key campaign "quarter". read_key campaign "target_segment".
  left. intros key Hin. unfold campaign_keys in Hin.
  repeat (apply elem_of_cons in Hin as [->|Hin]; [eauto|]). inversion Hin.
Qed.

(** The loop over records whose entries can all be built. *)
Lemma append_entries_ok (entry : dict -> outcome (value * dict * string))
    (records : list dict) (entries : list (value * dict * string))
    (documents : list value) (metadatas : list dict) (ids : list string) :
  Forall2 (fun record e => entry record = Ret e) records entries ->
  append_entries entry (documents, metadatas, ids) records =
    Ret (documents ++ entries.*1.*1, metadatas ++ entries.*1.*2, ids ++ entries.*2).
Proof.
  intros Hall. revert documents metadatas ids.
  induction Hall as [|record [[doc md] id] records entries Hentry _ IH];
    intros documents metadatas ids.
  - cbn. now rewrite !app_nil_r.
  - cbn [append_entries]. rewrite Hentry. cbn.
    rewrite IH. now rewrite <- !app_assoc.
Qed.

(** The loop over records one of which cannot be built. *)
Lemma append_entries_raise (entry : dict -> outcome (value * dict * string))
    (bad : exn -> Prop) (records : list dict)
    (lists : list value * list dict * list string) :
  (forall record e, entry record = Raise e -> bad e) ->
  (exists record e, record ∈ records /\ entry record = Raise e) ->
  exists e, bad e /\ append_entries entry lists records = Raise e.
Proof.
  intros Hbad. revert lists.
  induction records as [|record rest IH]; intros [[documents metadatas] ids]
    (r & e & Hin & Hr).
  - inversion Hin.
  - cbn [append_entries].
    destruct (entry record) as [[[doc md] id]|e'] eqn:Hentry.
    + cbn. apply IH. exists r, e. split; [|exact Hr].
      apply elem_of_cons in Hin as [->|Hin]; [congruence | exact Hin].
    + exists e'. split; [now apply Hbad with record | reflexivity].
Qed.

End Loading.

Section LoadingTheStore.
Context `{StoreAdmin}.

(** The entries the first loop builds for sales that have every key. *)
Lemma sale_entries (sales : list dict) :
  Forall (has_keys sale_keys) sales ->
  exists entries,
    Forall2 (fun sale e => sale_entry sale = Ret e) sales entries
    /\ entries.*2 = (fun sale => "sales_" +:+ str_opt (sale !! "id")) <$> sales
    /\ Forall2 (fun sale e =>
                  sale !! "description" = Some e.1.1
                  /\ e.1.2 !! "type" = Some (VStr "sales")) sales entries.
Proof.
  induction 1 as [|sale sales Hkeys _ (entries & Hbuilt & Hids & Hshape)].
  - exists []. repeat split; constructor.
  - destruct (sale_entry_ok sale Hkeys)
      as (doc & id & product & revenue & region & quarter & md
          & Hdoc & Hid & _ & _ & _ & _ & Hentry & Htype & _).
    exists ((doc, md, "sales_" +:+ str id) :: entries). split; [|split].
    + now constructor.
    + rewrite !fmap_cons, Hids, Hid. reflexivity.
    + constructor; [now split | exact Hshape].
Qed.

Lemma campaign_entries (marketing : list dict) :
  Forall (has_keys campaign_keys) marketing ->
  exists entries,
    Forall2 (fun campaign e => campaign_entry campaign = Ret e) marketing entries
    /\ entries.*2 =
         (fun campaign => "marketing_" +:+ str_opt (campaign !! "id")) <$> marketing
    /\ Forall2 (fun campaign e =>
                  campaign !! "description" = Some e.1.1
                  /\ e.1.2 !! "type" = Some (VStr "marketing")) marketing entries.
Proof.
  induction 1 as [|campaign marketing Hkeys _ (entries & Hbuilt & Hids & Hshape)].
  - exists []. repeat split; constructor.
  - destruct (campaign_entry_ok campaign Hkeys)
      as (doc & id & name & channel & budget & conversions & md
          & Hdoc & Hid & _ & _ & _ & _ & Hentry & Htype & _).
    exists ((doc, md, "marketing_" +:+ str id) :: entries). split; [|split].
    + now constructor.
    + rewrite !fmap_cons, Hids, Hid. reflexivity.
    + constructor; [now split | exact Hshape].
Qed.

(** The run of the loader on complete records, with the lists it adds. *)
Lemma load_complete_records (coll : collection) (sales marketing : list dict)
    (log : list store_event) :
  Forall (has_keys sale_keys) sales ->
  Forall (has_keys campaign_keys) marketing ->
  exists sold campaigns,
    Forall2 (fun sale e =>
               sale !! "description" = Some e.1.1
               /\ e.1.2 !! "type" = Some (VStr "sales")) sales sold
    /\ Forall2 (fun campaign e =>
                  campaign !! "description" = Some e.1.1
                  /\ e.1.2 !! "type" = Some (VStr "marketing")) marketing campaigns
    /\ sold.*2 = (fun sale => "sales_" +:+ str_opt (sale !! "id")) <$> sales
    /\ campaigns.*2 =
         (fun campaign => "marketing_" +:+ str_opt (campaign !! "id")) <$> marketing
    /\ load_data_to_vectordb coll sales marketing log =
         match collection_add coll (sold.*1.*1 ++ campaigns.*1.*1)
                 (sold.*1.*2 ++ campaigns.*1.*2) (sold.*2 ++ campaigns.*2) with
         | Ret _ =>
             (Ret (Z.of_nat (length sales + length marketing)),
              log ++ [ Added (sold.*1.*1 ++ campaigns.*1.*1)
                         (sold.*1.*2 ++ campaigns.*1.*2) (sold.*2 ++ campaigns.*2);
                       Shown ("Loaded "
                                +:+ pretty (Z.of_nat (length sales + length marketing))
                                +:+ " documents into ChromaDB") ])
         | Raise e =>
             (Raise e,
              log ++ [ Added (sold.*1.*1 ++ campaigns.*1.*1)
                         (sold.*1.*2 ++ campaigns.*1.*2) (sold.*2 ++ campaigns.*2) ])
         end.
Proof.
  intros Hsales Hmarketing.
  destruct (sale_entries sales Hsales) as (sold & Hsold & Hsold_ids & Hsold_shape).
  destruct (campaign_entries marketing Hmarketing)
    as (campaigns & Hcamp & Hcamp_ids & Hcamp_shape).
  exists sold, campaigns. repeat (split; [assumption|]).
  unfold load_data_to_vectordb.
  unfold mbind at 1 2, admin_bind, answer.
  rewrite (append_entries_ok _ _ _ _ _ _ Hsold). cbn [app].
  rewrite (append_entries_ok _ _ _ _ _ _ Hcamp).
  unfold mbind, admin_bind, note, mret, admin_ret.
  assert (Hlen : length (sold.*1.*1 ++ campaigns.*1.*1)
                 = (length sales + length marketing)%nat).
  { rewrite length_app, !length_fmap.
    now rewrite <- (Forall2_length _ _ _ Hsold), <- (Forall2_length _ _ _ Hcamp). }
  destruct (collection_add coll _ _ _); [|reflexivity].
  rewrite Hlen. now rewrite <- app_assoc.
Qed.

(** X14.  On sales and campaigns that have every key, and with a store
    that accepts the write, the loader adds everything in one call and
    returns the number of records.  The three lists it adds have that
    length and are aligned: position [i] holds the [i]-th sale (its
    description, a metadata of type sales, the id prefixed with "sales_"),
    and the campaigns follow the sales in the same way. *)
Theorem load_adds_one_aligned_batch (coll : collection) (sales marketing : list dict)
    (log : list store_event) :
  Forall (has_keys sale_keys) sales ->
  Forall (has_keys campaign_keys) marketing ->
  (forall documents metadatas ids, collection_add coll documents metadatas ids = Ret tt) ->
  exists documents metadatas ids,
    load_data_to_vectordb coll sales marketing log =
      (Ret (Z.of_nat (length sales + length marketing)),
       log ++ [ Added documents metadatas ids;
                Shown ("Loaded " +:+ pretty (Z.of_nat (length sales + length marketing))
                         +:+ " documents into ChromaDB") ])
    /\ length documents = (length sales + length marketing)%nat
    /\ length metadatas = (length sales + length marketing)%nat
    /\ length ids = (length sales + length marketing)%nat
    /\ (forall i sale, sales !! i = Some sale ->
          documents !! i = sale !! "description"
          /\ (exists md, metadatas !! i = Some md /\ md !! "type" = Some (VStr "sales"))
          /\ ids !! i = Some ("sales_" +:+ str_opt (sale !! "id")))
    /\ (forall j campaign, marketing !! j = Some campaign ->
          documents !! (length sales + j)%nat = campaign !! "description"
          /\ (exists md, metadatas !! (length sales + j)%nat = Some md
                         /\ md !! "type" = Some (VStr "marketing"))
          /\ ids !! (length sales + j)%nat
             = Some ("marketing_" +:+ str_opt (campaign !! "id"))).
Proof.
  intros Hsales Hmarketing Haccept.
  destruct (load_complete_records coll sales marketing log Hsales Hmarketing)
    as (sold & campaigns & Hsold & Hcamp & Hsold_ids & Hcamp_ids & Hrun).
  rewrite Haccept in Hrun.
  pose proof (Forall2_length _ _ _ Hsold) as Hlen_sold.
  pose proof (Forall2_length _ _ _ Hcamp) as Hlen_camp.
  eexists _, _, _. split; [exact Hrun|].
  split; [rewrite length_app, !length_fmap; lia|].
  split; [rewrite length_app, !length_fmap; lia|].
  split; [rewrite length_app, !length_fmap; lia|].
  split.
  - intros i sale Hi.
    destruct (Forall2_lookup_l _ _ _ _ _ Hsold Hi) as ([[doc md] id] & He & Hdoc & Htype).
    assert (Hlt : (i < length sold)%nat) by (apply lookup_lt_is_Some; eauto).
    rewrite !lookup_app_l by (rewrite ?length_fmap; lia).
    split; [|split].
    + rewrite !list_lookup_fmap, He. now rewrite Hdoc.
    + exists md. split; [|exact Htype]. now rewrite !list_lookup_fmap, He.
    + rewrite Hsold_ids, list_lookup_fmap, Hi. reflexivity.
  - intros j campaign Hj.
    destruct (Forall2_lookup_l _ _ _ _ _ Hcamp Hj) as ([[doc md] id] & He & Hdoc & Htype).
    rewrite Hlen_sold.
    rewrite !lookup_app_r by (rewrite ?length_fmap; lia).
    rewrite !length_fmap.
    replace (length sold + j - length sold)%nat with j by lia.
    split; [|split].
    + rewrite !list_lookup_fmap, He. now rewrite Hdoc.
    + exists md. split; [|exact Htype]. now rewrite !list_lookup_fmap, He.
    + rewrite Hcamp_ids, list_lookup_fmap, Hj. reflexivity.
Qed.

(** X15.  When a sale or a campaign lacks one of the keys the loader
    reads, the loader raises a [KeyError] of one of these keys and the
    store is not touched: nothing is added, not even the complete
    records, and nothing is printed. *)
Theorem load_is_all_or_nothing (coll : collection) (sales marketing : list dict)
    (log : list store_event) :
  (exists record key,
     (record ∈ sales /\ key ∈ sale_keys \/ record ∈ marketing /\ key ∈ campaign_keys)
     /\ record !! key = None) ->
  exists key,
    key ∈ sale_keys ++ campaign_keys
    /\ load_data_to_vectordb coll sales marketing log = (Raise (KeyError key), log).
Proof.
  intros (record & key & Hwhere & Hmissing).
  assert (Hsale_bad : forall sale e, sale_entry sale = Raise e ->
            exists k, k ∈ sale_keys ++ campaign_keys /\ e = KeyError k).
  { intros sale e He. destruct (sale_entry_total sale) as [Hkeys|(k & Hk & Hraise)].
    - destruct (sale_entry_ok sale Hkeys)
        as (? & ? & ? & ? & ? & ? & ? & _ & _ & _ & _ & _ & _ & Hok & _). congruence.
    - exists k. split; [apply elem_of_app; now left | congruence]. }
  assert (Hcamp_bad : forall campaign e, campaign_entry campaign = Raise e ->
            exists k, k ∈ sale_keys ++ campaign_keys /\ e = KeyError k).
  { intros campaign e He.
    destruct (campaign_entry_total campaign) as [Hkeys|(k & Hk & Hraise)].
    - destruct (campaign_entry_ok campaign Hkeys)
        as (? & ? & ? & ? & ? & ? & ? & _ & _ & _ & _ & _ & _ & Hok & _). congruence.
    - exists k. split; [apply elem_of_app; now right | congruence]. }
  unfold load_data_to_vectordb. unfold mbind at 1 2, admin_bind, answer.
  destruct (append_entries sale_entry ([], [], []) sales) as [lists|e] eqn:Hsold.
  - destruct Hwhere as [[Hin Hkey]|[Hin Hkey]].
    + exfalso.
      destruct (sale_entry_total record) as [Hkeys|(k & _ & Hraise)].
      * destruct (Hkeys key Hkey) as [v Hv]. congruence.
      * destruct (append_entries_raise sale_entry (fun _ => True) sales ([], [], []))
          as (e & _ & Hfail); [trivial | now exists record, (KeyError k) | congruence].
    + destruct (campaign_entry_total record) as [Hkeys|(k & _ & Hraise)].
      * destruct (Hkeys key Hkey) as [v Hv]. congruence.
      * destruct (append_entries_raise campaign_entry
                    (fun e => exists k, k ∈ sale_keys ++ campaign_keys /\ e = KeyError k)
                    marketing lists Hcamp_bad)
          as (e & (k' & Hk' & ->) & Hfail); [now exists record, (KeyError k)|].
        rewrite Hfail. now exists k'.
  - assert (Hbad : exists k, k ∈ sale_keys ++ campaign_keys /\ e = KeyError k).
    { clear Hwhere. revert Hsold. generalize ([] : list value, [] : list dict, [] : list string).
      induction sales as [|sale rest IH]; intros [[documents metadatas] ids] Hrun.
      - discriminate.
      - cbn [append_entries] in Hrun.
        destruct (sale_entry sale) as [[[doc md] id]|e'] eqn:Hentry.
        + cbn in Hrun. now apply IH in Hrun.
        + cbn in Hrun. injection Hrun as <-. now apply Hsale_bad with sale. }
    destruct Hbad as (k & Hk & ->). now exists k.
Qed.

(** X16.  When the store rejects the write, the loader raises the store's
    exception after its single add call and prints nothing. *)
Theorem load_propagates_store_failure (coll : collection) (sales marketing : list dict)
    (e : exn) (log : list store_event) :
  Forall (has_keys sale_keys) sales ->
  Forall (has_keys campaign_keys) marketing ->
  (forall documents metadatas ids, collection_add coll documents metadatas ids = Raise e) ->
  exists documents metadatas ids,
    load_data_to_vectordb coll sales marketing log =
      (Raise e, log ++ [Added documents metadatas ids]).
Proof.
  intros Hsales Hmarketing Hreject.
  destruct (load_complete_records coll sales marketing log Hsales Hmarketing)
    as (sold & campaigns & _ & _ & _ & _ & Hrun).
  rewrite Hreject in Hrun. eexists _, _, _. exact Hrun.
Qed.

(** X17.  The ids the loader adds are pairwise distinct as soon as the
    printed ids of the sales are pairwise distinct and so are those of the
    campaigns: the prefixes keep a sale and a campaign with the same id
    apart. *)
Theorem load_ids_are_distinct (coll : collection) (sales marketing : list dict)
    (log : list store_event) :
  Forall (has_keys sale_keys) sales ->
  Forall (has_keys campaign_keys) marketing ->
  NoDup ((fun sale => str_opt (sale !! "id")) <$> sales) ->
  NoDup ((fun campaign => str_opt (campaign !! "id")) <$> marketing) ->
  exists documents metadatas ids rest,
    (load_data_to_vectordb coll sales marketing log).2
      = log ++ Added documents metadatas ids :: rest
    /\ NoDup ids.
Proof.
  intros Hsales Hmarketing Hsale_ids Hcampaign_ids.
  destruct (load_complete_records coll sales marketing log Hsales Hmarketing)
    as (sold & campaigns & _ & _ & Hsold_ids & Hcamp_ids & Hrun).
  exists (sold.*1.*1 ++ campaigns.*1.*1), (sold.*1.*2 ++ campaigns.*1.*2),
    (sold.*2 ++ campaigns.*2).
  assert (Hdistinct : NoDup (sold.*2 ++ campaigns.*2)).
  { rewrite Hsold_ids, Hcamp_ids. apply NoDup_app. split; [|split].
    - replace ((fun sale : dict => "sales_" +:+ str_opt (sale !! "id")) <$> sales)
        with (String.append "sales_" <$> ((fun sale : dict => str_opt (sale !! "id")) <$> sales))
        by (now rewrite <- list_fmap_compose).
      now apply (NoDup_fmap_2 _).
    - intros id Hsale Hcampaign.
      apply list_elem_of_fmap in Hsale as (sale & -> & _).
      apply list_elem_of_fmap in Hcampaign as (campaign & Heq & _).
      rewrite !append_cons in Heq. discriminate.
    - replace ((fun campaign : dict => "marketing_" +:+ str_opt (campaign !! "id"))
                 <$> marketing)
        with (String.append "marketing_"
                <$> ((fun campaign : dict => str_opt (campaign !! "id")) <$> marketing))
        by (now rewrite <- list_fmap_compose).
      now apply (NoDup_fmap_2 _). }
  rewrite Hrun. destruct (collection_add coll _ _ _); eexists; (split; [reflexivity|]);
    exact Hdistinct.
Qed.

End LoadingTheStore.

Section LoadedRecords.
Context `{Unicode}.

(** X18.  What the loader stores is what the composer prints: for a sale
    with every key the metadata built by the loader composes into the line
    with the sale's product, revenue, region and quarter, and for a
    campaign into the line with its name, channel, budget and conversions;
    no value shows as [None]. *)
Theorem loaded_records_compose_fully (sale campaign : dict) (i : nat) (text : string)
    (distance : float) :
  has_keys sale_keys sale ->
  has_keys campaign_keys campaign ->
  exists doc md id product revenue region quarter,
    sale_entry sale = Ret (doc, md, id)
    /\ sale !! "product" = Some product /\ sale !! "revenue" = Some revenue
    /\ sale !! "region" = Some region /\ sale !! "quarter" = Some quarter
    /\ (exists heading,
          item_parts (make_item i (text, md, distance)) =
            Ret [ heading; "   " +:+ text;
                  "   Product: " +:+ str product +:+ ", Revenue: $" +:+ str revenue
                    +:+ ", Region: " +:+ str region +:+ ", Quarter: " +:+ str quarter ])
    /\ exists doc' md' id' name channel budget conversions,
         campaign_entry campaign = Ret (doc', md', id')
         /\ campaign !! "campaign_name" = Some name /\ campaign !! "channel" = Some channel
         /\ campaign !! "budget" = Some budget
         /\ campaign !! "conversions" = Some conversions
         /\ exists heading,
              item_parts (make_item i (text, md', distance)) =
                Ret [ heading; "   " +:+ text;
                      "   Campaign: " +:+ str name +:+ ", Channel: " +:+ str channel
                        +:+ ", Budget: $" +:+ str budget
                        +:+ ", Conversions: " +:+ str conversions ].
Proof.
  intros Hsale Hcampaign.
  destruct (sale_entry_ok sale Hsale)
    as (doc & id & product & revenue & region & quarter & md
        & _ & _ & Hproduct & Hrevenue & Hregion & Hquarter & Hentry
        & Htype & Hmd_product & Hmd_revenue & Hmd_region & Hmd_quarter).
  destruct (campaign_entry_ok campaign Hcampaign)
    as (doc' & id' & name & channel & budget & conversions & md'
        & _ & _ & Hname & Hchannel & Hbudget & Hconversions & Hentry'
        & Htype' & Hmd_name & Hmd_channel & Hmd_budget & Hmd_conversions).
  exists doc, md, ("sales_" +:+ str id), product, revenue, region, quarter.
  split; [exact Hentry|]. repeat (split; [assumption|]). split.
  - eexists. unfold item_parts. cbn [make_item type_ metadata]. rewrite Htype. cbn.
    rewrite Hmd_product, Hmd_revenue, Hmd_region, Hmd_quarter. reflexivity.
  - exists doc', md', ("marketing_" +:+ str id'), name, channel, budget, conversions.
    split; [exact Hentry'|]. repeat (split; [assumption|]).
    eexists. unfold item_parts. cbn [make_item type_ metadata]. rewrite Htype'. cbn.
    rewrite Hmd_name, Hmd_channel, Hmd_budget, Hmd_conversions. reflexivity.
Qed.

End LoadedRecords.

Section Clearing.
Context `{StoreAdmin}.

(** [clear_collection] never raises: it asks the store once to delete the
    collection and prints one line, the confirmation when the deletion
    returned and "does not exist" whenever it raised. *)
Lemma clear_collection_never_raises (cl : client) (name : string)
    (log : list store_event) :
  clear_collection cl name log =
    (Ret tt,
     log ++ [ Deleted name;
              Shown (match delete_collection cl name with
                     | Ret _ => "Deleted collection: " +:+ name
                     | Raise _ => "Collection " +:+ name +:+ " does not exist"
                     end) ]).
Proof.
  unfold clear_collection, mbind, admin_bind, note.
  destruct (delete_collection cl name); cbn; now rewrite <- app_assoc.
Qed.

End Clearing.

(** ** Concrete runs of the further properties *)
Section ClosedRun.
#[local] Existing Instance ascii_interpreter.
#[local] Existing Instance closed_world.

Lemma report_stops_when_retrieval_fails_run :
  (retrieve_context "Top products" "sales" 5 ([] ++ [Printed start_line])).1
    = Raise (External "IndexUnavailable")
  /\ (generate_report_with_autogen_multiagent "Top products" "sales" 5 []).1
       = Raise (External "IndexUnavailable")
  /\ generations (generate_report_with_autogen_multiagent "Top products" "sales" 5 []).2 = [].
Proof.
  assert (Hfail : (retrieve_context "Top products" "sales" 5 ([] ++ [Printed start_line])).1
                  = Raise (External "IndexUnavailable")) by reflexivity.
  split; [exact Hfail|].
  destruct (report_stops_when_retrieval_fails "Top products" "sales" 5
              (External "IndexUnavailable") [] Hfail) as (Hraise & _ & Hcalls).
  split; [exact Hraise | exact Hcalls].
Defined.

End ClosedRun.

Section WriterDownRun.
#[local] Existing Instance ascii_interpreter.
#[local] Existing Instance writer_down_world.

Lemma writer_failure_propagates_run :
  completion (at_analyst []) create_data_analyst_agent
    (analysis_prompt "Top products" sentinel) = Ret "Answer of data_analyst"
  /\ completion (at_writer "Top products" sentinel []) create_report_writer_agent
       (report_prompt "Top products" "Answer of data_analyst")
     = Raise (External "GenerationServiceError")
  /\ (analyse_then_write "Top products" sentinel []).1
     = Raise (External "GenerationServiceError").
Proof.
  assert (Hanalyst : completion (at_analyst []) create_data_analyst_agent
            (analysis_prompt "Top products" sentinel) = Ret "Answer of data_analyst")
    by reflexivity.
  assert (Hwriter : completion (at_writer "Top products" sentinel [])
            create_report_writer_agent
            (report_prompt "Top products" "Answer of data_analyst")
          = Raise (External "GenerationServiceError")) by reflexivity.
  split; [exact Hanalyst|]. split; [exact Hwriter|].
  now rewrite (writer_failure_propagates "Top products" sentinel "Answer of data_analyst"
                 (External "GenerationServiceError") [] Hanalyst Hwriter).
Defined.

End WriterDownRun.

Section AnsweringRunMore.
#[local] Existing Instance ascii_interpreter.
#[local] Existing Instance answering_world.

Lemma answering_world_opens : store_opens.
Proof. exists tt, tt. split; [reflexivity | left; reflexivity]. Defined.

Lemma report_runs_in_order_run :
  exists context tr1,
    retrieve_context "Top products" "sales" 5 ([] ++ [Printed start_line])
      = (Ret context, tr1)
    /\ (generate_report_with_autogen_multiagent "Top products" "sales" 5 []).1
       = Ret "Answer of report_writer"
    /\ contains (analysis_prompt "Top products" context) "Q3 revenue up 12%".
Proof.
  destruct (retrieve_context "Top products" "sales" 5 ([] ++ [Printed start_line]))
    as [[context|e] tr1] eqn:Hctx; [|vm_compute in Hctx; discriminate].
  exists context, tr1. split; [reflexivity|].
  assert (Hanalyst : completion (at_analyst tr1) create_data_analyst_agent
            (analysis_prompt "Top products" context) = Ret "Answer of data_analyst")
    by reflexivity.
  assert (Hwriter : completion (at_writer "Top products" context tr1)
            create_report_writer_agent
            (report_prompt "Top products" "Answer of data_analyst")
          = Ret "Answer of report_writer") by reflexivity.
  destruct (report_runs_in_order "Top products" "sales" context "Answer of data_analyst"
              "Answer of report_writer" 5 [] tr1 Hctx Hanalyst Hwriter)
    as (Hrun & Hcontext & _).
  split; [now rewrite Hrun|].
  apply contains_trans with context; [exact Hcontext|].
  assert (Hvalue : Ret context = Ret (A:=string) _)
    by (apply (f_equal fst) in Hctx; symmetry; exact Hctx).
  vm_compute in Hvalue. injection Hvalue as ->.
  apply containsb_sound. vm_compute. reflexivity.
Defined.

Lemma filtered_reports_search_once_run :
  store_opens /\ "North America" ≠ "" /\ "Q1 2024" ≠ ""
  /\ searches (generate_sales_performance_report (Some "North America") (Some "Q1 2024") []).2
     = [ search_call "Analyze sales performance in North America for Q1 2024" 8
           (Some {[ "type" := VStr "sales" ]}) ]
  /\ searches (generate_sales_performance_report None None []).2
     = [ search_call "Analyze sales performance" 8 (Some {[ "type" := VStr "sales" ]}) ]
  /\ searches (generate_marketing_campaign_report None (Some "Q1 2024") []).2
     = [ search_call "Analyze marketing campaign performance in Q1 2024" 8
           (Some {[ "type" := VStr "marketing" ]}) ].
Proof.
  assert (Hregion : "North America" ≠ "") by discriminate.
  assert (Hquarter : "Q1 2024" ≠ "") by discriminate.
  split; [exact answering_world_opens|]. split; [exact Hregion|]. split; [exact Hquarter|].
  destruct (filtered_reports_search_once "North America" "Q1 2024" []
              answering_world_opens) as (_ & _ & Hbare & Hgiven).
  destruct (Hgiven Hregion Hquarter None (or_introl eq_refl))
    as (Hboth & _ & _ & _ & _ & Hquarter_only).
  split; [exact Hboth|]. split; [|exact Hquarter_only].
  exact (proj1 (Hbare None None (or_introl eq_refl) (or_introl eq_refl))).
Defined.

Lemma combined_reports_search_once_run :
  store_opens
  /\ searches (generate_quarterly_summary_report "Q3 2024" []).2
     = [ search_call
           "Provide a comprehensive summary of sales and marketing performance for Q3 2024"
           10 None ].
Proof.
  split; [exact answering_world_opens|].
  destruct (combined_reports_search_once "Q3 2024" [] answering_world_opens)
    as (Hquarterly & _).
  exact Hquarterly.
Defined.

Lemma retrieved_documents_reach_the_prompt_run :
  store_opens
  /\ (forall c p, collection_query c p = Ret (batch_of [widget_hit]))
  /\ exists context,
       (retrieve_context "Top products" "combined" 8 []).1 = Ret context
       /\ contains context "   Q3 revenue up 12%".
Proof.
  assert (Hanswer : forall c p, collection_query c p = Ret (batch_of [widget_hit]))
    by reflexivity.
  assert (Htypes : forall h, h ∈ [widget_hit] ->
            hit_metadata h !! "type" = None
            \/ exists t, hit_metadata h !! "type" = Some (VStr t)).
  { intros h Hin. apply list_elem_of_singleton in Hin as ->. right. now exists "sales". }
  split; [exact answering_world_opens|]. split; [exact Hanswer|].
  destruct (retrieved_documents_reach_the_prompt [widget_hit] "Top products" "combined" 8 []
              answering_world_opens Hanswer Htypes) as (context & Hctx & Hdocs).
  exists context. split; [exact Hctx|].
  exact (proj1 (Hdocs widget_hit (list_elem_of_here _ _))).
Defined.

End AnsweringRunMore.

Section ComposeRuns.
#[local] Existing Instance ascii_interpreter.

Lemma other_types_get_no_metadata_line_run :
  [untyped_hit] !! 0%nat = Some untyped_hit
  /\ hit_metadata untyped_hit !! "type" = None
  /\ exists items it,
       format_retrieval_results (Some (batch_of [untyped_hit])) = Ret (FList items)
       /\ items !! 0%nat = Some it
       /\ type_ it = VStr "unknown"
       /\ item_parts it
          = Ret [ nl +:+ "1. [UNKNOWN] (Relevance: 0.75)"; "   Inventory note" ].
Proof.
  assert (Hhit : [untyped_hit] !! 0%nat = Some untyped_hit) by reflexivity.
  assert (Htype : hit_metadata untyped_hit !! "type" = None) by reflexivity.
  split; [exact Hhit|]. split; [exact Htype|].
  destruct (other_types_get_no_metadata_line [untyped_hit] 0 untyped_hit Hhit Htype)
    as (items & it & Hfmt & Hit & Hunknown & Hparts & _).
  exists items, it. split; [exact Hfmt|]. split; [exact Hit|]. split; [exact Hunknown|].
  rewrite Hparts. rewrite format_batch in Hfmt. injection Hfmt as <-.
  injection Hit as <-. vm_compute. reflexivity.
Defined.

Lemma compose_appends_entry_run :
  create_context_string (FList []) = Ret ("Retrieved relevant information:" +:+ nl)
  /\ exists parts,
       item_parts bare_item = Ret parts
       /\ create_context_string (FList ([] ++ [bare_item]))
          = Ret (("Retrieved relevant information:" +:+ nl) +:+ nl +:+ join nl parts).
Proof.
  assert (Hout : create_context_string (FList [])
                 = Ret ("Retrieved relevant information:" +:+ nl)) by reflexivity.
  split; [exact Hout|].
  eexists. split; [reflexivity|].
  apply (compose_appends_entry [] bare_item _ _ Hout). reflexivity.
Defined.

End ComposeRuns.

Section StoreRuns.
#[local] Existing Instance ascii_interpreter.

Lemma widget_sale_has_keys : has_keys sale_keys widget_sale.
Proof.
  intros key Hin. unfold sale_keys in Hin.
  repeat (apply elem_of_cons in Hin as [->|Hin]; [now eexists|]). inversion Hin.
Defined.

Lemma spring_campaign_has_keys : has_keys campaign_keys spring_campaign.
Proof.
  intros key Hin. unfold campaign_keys in Hin.
  repeat (apply elem_of_cons in Hin as [->|Hin]; [now eexists|]). inversion Hin.
Defined.

Lemma load_adds_one_aligned_batch_run :
  Forall (has_keys sale_keys) [widget_sale]
  /\ Forall (has_keys campaign_keys) [spring_campaign]
  /\ (@load_data_to_vectordb answering_world accepting_store tt
        [widget_sale] [spring_campaign] []).1 = Ret 2.
Proof.
  assert (Hsales : Forall (has_keys sale_keys) [widget_sale])
    by (constructor; [exact widget_sale_has_keys | constructor]).
  assert (Hmarketing : Forall (has_keys campaign_keys) [spring_campaign])
    by (constructor; [exact spring_campaign_has_keys | constructor]).
  split; [exact Hsales|]. split; [exact Hmarketing|].
  destruct (@load_adds_one_aligned_batch answering_world accepting_store tt
              [widget_sale] [spring_campaign] [] Hsales Hmarketing
              (fun _ _ _ => eq_refl)) as (documents & metadatas & ids & Hrun & _).
  now rewrite Hrun.
Defined.

Lemma load_is_all_or_nothing_run :
  (exists record key,
     (record ∈ [widget_sale; (∅ : dict)] /\ key ∈ sale_keys
      \/ record ∈ [spring_campaign] /\ key ∈ campaign_keys)
     /\ record !! key = None)
  /\ exists key,
       @load_data_to_vectordb answering_world accepting_store tt
         [widget_sale; ∅] [spring_campaign] [] = (Raise (KeyError key), []).
Proof.
  assert (Hmissing : exists record key,
            (record ∈ [widget_sale; (∅ : dict)] /\ key ∈ sale_keys
             \/ record ∈ [spring_campaign] /\ key ∈ campaign_keys)
            /\ record !! key = None).
  { exists ∅, "description". split; [|reflexivity]. left. split.
    - apply list_elem_of_further, list_elem_of_here.
    - apply list_elem_of_here. }
  split; [exact Hmissing|].
  destruct (@load_is_all_or_nothing answering_world accepting_store tt
              [widget_sale; ∅] [spring_campaign] [] Hmissing) as (key & _ & Hrun).
  now exists key.
Defined.

Lemma load_propagates_store_failure_run :
  Forall (has_keys sale_keys) [widget_sale]
  /\ Forall (has_keys campaign_keys) [spring_campaign]
  /\ (@load_data_to_vectordb answering_world rejecting_store tt
        [widget_sale] [spring_campaign] []).1 = Raise (External "StoreFull").
Proof.
  assert (Hsales : Forall (has_keys sale_keys) [widget_sale])
    by (constructor; [exact widget_sale_has_keys | constructor]).
  assert (Hmarketing : Forall (has_keys campaign_keys) [spring_campaign])
    by (constructor; [exact spring_campaign_has_keys | constructor]).
  split; [exact Hsales|]. split; [exact Hmarketing|].
  destruct (@load_propagates_store_failure answering_world rejecting_store tt
              [widget_sale] [spring_campaign] (External "StoreFull") []
              Hsales Hmarketing (fun _ _ _ => eq_refl))
    as (documents & metadatas & ids & Hrun).
  now rewrite Hrun.
Defined.

Lemma load_ids_are_distinct_run :
  NoDup ((fun sale : dict => str_opt (sale !! "id")) <$> [widget_sale])
  /\ NoDup ((fun campaign : dict => str_opt (campaign !! "id")) <$> [spring_campaign])
  /\ exists documents metadatas ids rest,
       (@load_data_to_vectordb answering_world accepting_store tt
          [widget_sale] [spring_campaign] []).2
         = [] ++ Added documents metadatas ids :: rest
       /\ NoDup ids.
Proof.
  assert (Hsales : Forall (has_keys sale_keys) [widget_sale])
    by (constructor; [exact widget_sale_has_keys | constructor]).
  assert (Hmarketing : Forall (has_keys campaign_keys) [spring_campaign])
    by (constructor; [exact spring_campaign_has_keys | constructor]).
  assert (Hsale_ids : NoDup ((fun sale : dict => str_opt (sale !! "id")) <$> [widget_sale]))
    by (apply NoDup_singleton).
  assert (Hcampaign_ids :
            NoDup ((fun campaign : dict => str_opt (campaign !! "id")) <$> [spring_campaign]))
    by (apply NoDup_singleton).
  split; [exact Hsale_ids|]. split; [exact Hcampaign_ids|].
  exact (@load_ids_are_distinct answering_world accepting_store tt
           [widget_sale] [spring_campaign] [] Hsales Hmarketing Hsale_ids Hcampaign_ids).
Defined.

Lemma loaded_records_compose_fully_run :
  has_keys sale_keys widget_sale
  /\ has_keys campaign_keys spring_campaign
  /\ exists doc md id heading,
       sale_entry widget_sale = Ret (doc, md, id)
       /\ item_parts (make_item 0 ("Q3 revenue up 12%", md, decimal 9 2)) =
            Ret [ heading; "   Q3 revenue up 12%";
                  "   Product: Widget A, Revenue: $500000, Region: NA, Quarter: Q3" ].
Proof.
  split; [exact widget_sale_has_keys|]. split; [exact spring_campaign_has_keys|].
  destruct (loaded_records_compose_fully widget_sale spring_campaign 0
              "Q3 revenue up 12%" (decimal 9 2)
              widget_sale_has_keys spring_campaign_has_keys)
    as (doc & md & id & product & revenue & region & quarter
        & Hentry & Hproduct & Hrevenue & Hregion & Hquarter & (heading & Hparts) & _).
  vm_compute in Hproduct, Hrevenue, Hregion, Hquarter.
  injection Hproduct as <-. injection Hrevenue as <-.
  injection Hregion as <-. injection Hquarter as <-.
  exists doc, md, id, heading. split; [exact Hentry | exact Hparts].
Defined.

End StoreRuns.
